(** * Line Bridge Simulator: the browser verification scripts

    A shallow embedding of the three Playwright scripts under
    [jules-scratch/verification/]:

    - [verify_simulation.py]
    - [verify_boundary_conditions.py]
    - [verify_clusters.py]

    The scripts are straight-line drivers of the Playwright synchronous API.
    Each API call is answered by the browser, which is outside the scripts:
    it is modelled as an arbitrary transition function [respond] on an
    arbitrary world state.  A script is a computation in a state-and-exception
    monad whose state carries the world, the observable trace (API calls,
    delivered page events, printed lines), the listeners registered with
    [page.on], the two Python lists of [verify_simulation.py] and the file
    system. *)

From stdpp Require Import gmap strings list.
From Stdlib Require Import ZArith.
From Stdlib.Strings Require Import Ascii Byte.

Local Open Scope Z_scope.
Local Open Scope string_scope.
Local Open Scope list_scope.

(** ** Python values the scripts handle *)

(** Exceptions, under the names of the specification's taxonomy.
    [except Exception] catches every class below except [KeyboardInterrupt],
    which derives from [BaseException] only. *)
Inductive Exn :=
| EnvironmentError (msg : string)         (* no usable browser runtime *)
| NavigationError (msg : string)          (* the target does not load *)
| ElementNotFoundError (msg : string)     (* a locator timed out *)
| AssertionError (expected observed : string)
| OtherException (msg : string)
| KeyboardInterrupt.

Definition is_Exception (e : Exn) : bool :=
  match e with
  | KeyboardInterrupt => false
  | _ => true
  end.

(** [str(e)] *)
Definition str_exn (e : Exn) : string :=
  match e with
  | EnvironmentError m | NavigationError m | ElementNotFoundError m
  | OtherException m => m
  | AssertionError expected observed =>
      "expected " +:+ expected +:+ ", observed " +:+ observed
  | KeyboardInterrupt => EmptyString
  end.

(** Locators are lazy descriptions of an element: building one performs no
    browser round trip. *)
Inductive Locator :=
| locator (selector : string)             (* page.locator(selector) *)
| get_by_role (role name : string).       (* page.get_by_role(role, name=name) *)

(** The Playwright calls the three scripts make, with their arguments as
    written in the source; an argument the source does not pass is [None]. *)
Inductive Call :=
| sync_playwright_enter
| sync_playwright_exit
| launch (headless : bool)
| new_page
| goto (url : string)
| expect_to_be_visible (l : Locator)
| expect_not_to_have_text (l : Locator) (text : string) (timeout : option Z)
| expect_to_have_value (l : Locator) (value : string)
| click (l : Locator)
| scroll_into_view_if_needed (l : Locator)
| select_option (l : Locator) (value : string)
| wait_for_timeout (ms : Z)
| screenshot (path : option string) (full_page : option bool)
| close.

Record ConsoleMessage := { msg_type : string; msg_text : string }.

Inductive PageEvent :=
| EvConsole (msg : ConsoleMessage)
| EvPageError (exc : Exn).

Inductive EventName := console | pageerror.

Definition event_name (ev : PageEvent) : EventName :=
  match ev with
  | EvConsole _ => console
  | EvPageError _ => pageerror
  end.

(** The two lambdas of [verify_simulation.py], lines 16 and 17, as closures
    over the lists [console_messages] and [page_errors]. *)
Inductive Handler :=
| append_console_message
| append_page_error.

#[global] Instance Exn_eq_dec : EqDecision Exn.
Proof. solve_decision. Defined.
#[global] Instance Locator_eq_dec : EqDecision Locator.
Proof. solve_decision. Defined.
#[global] Instance Call_eq_dec : EqDecision Call.
Proof. solve_decision. Defined.
#[global] Instance ConsoleMessage_eq_dec : EqDecision ConsoleMessage.
Proof. solve_decision. Defined.
#[global] Instance PageEvent_eq_dec : EqDecision PageEvent.
Proof. solve_decision. Defined.
#[global] Instance EventName_eq_dec : EqDecision EventName.
Proof. solve_decision. Defined.
#[global] Instance Handler_eq_dec : EqDecision Handler.
Proof. solve_decision. Defined.

(** What can be observed of a run, in the order it happens. *)
Inductive Obs :=
| Called (c : Call)                       (* the call is issued *)
| Emitted (ev : PageEvent)                (* the page delivers an event *)
| Returned (c : Call)                     (* the call returns normally *)
| Threw (c : Call) (e : Exn)              (* the call raises *)
| Saved (path : string) (data : list byte) (* the browser writes a file *)
| Listening (name : EventName)            (* page.on(name, ...) *)
| Printed (line : string).                (* print(line) *)

#[global] Instance byte_eq_dec : EqDecision byte := Byte.byte_eq_dec.
#[global] Instance Obs_eq_dec : EqDecision Obs.
Proof. solve_decision. Defined.

(** The browser's answer to one call: the page events delivered while the
    call is in progress, whether the call raises, and, for a screenshot, the
    encoded image. *)
Record Response := {
  resp_events : list PageEvent;
  resp_raises : option Exn;
  resp_image : list byte
}.

Inductive Res (A : Type) :=
| Ok (a : A)
| Raise (e : Exn).
Arguments Ok {A} a.
Arguments Raise {A} e.

Definition nl : string := String "010"%char EmptyString.

(** ** The runtime: state, monad, Python control flow *)

Section Runtime.
Context {W : Type}.
Variable respond : Call -> W -> Response * W.

Record St := {
  world : W;
  trace : list Obs;
  listeners : list (EventName * Handler);
  console_messages : list string;
  page_errors : list string;
  fs : gmap string (list byte)
}.

Definition M (A : Type) : Type := St -> Res A * St.

Definition ret {A} (a : A) : M A := fun st => (Ok a, st).

Definition bind {A B} (m : M A) (k : A -> M B) : M B :=
  fun st =>
    match m st with
    | (Ok a, st') => k a st'
    | (Raise e, st') => (Raise e, st')
    end.

Definition log (o : Obs) (st : St) : St :=
  {| world := world st; trace := trace st ++ [o];
     listeners := listeners st;
     console_messages := console_messages st;
     page_errors := page_errors st; fs := fs st |}.

Definition set_world (w : W) (st : St) : St :=
  {| world := w; trace := trace st; listeners := listeners st;
     console_messages := console_messages st;
     page_errors := page_errors st; fs := fs st |}.

Definition write_file (path : string) (data : list byte) (st : St) : St :=
  {| world := world st; trace := trace st ++ [Saved path data];
     listeners := listeners st;
     console_messages := console_messages st;
     page_errors := page_errors st; fs := <[path := data]> (fs st) |}.

(** [lambda msg: console_messages.append(f"[{msg.type}] {msg.text}")] *)
Definition format_console (msg : ConsoleMessage) : string :=
  "[" +:+ msg_type msg +:+ "] " +:+ msg_text msg.

(** Running a registered handler on an event.  A handler only ever
    receives events of the name it was registered for. *)
Definition run_handler (h : Handler) (ev : PageEvent) (st : St) : St :=
  match h, ev with
  | append_console_message, EvConsole msg =>
      {| world := world st; trace := trace st; listeners := listeners st;
         console_messages := console_messages st ++ [format_console msg];
         page_errors := page_errors st; fs := fs st |}
  | append_page_error, EvPageError exc =>
      {| world := world st; trace := trace st; listeners := listeners st;
         console_messages := console_messages st;
         page_errors := page_errors st ++ [str_exn exc]; fs := fs st |}
  | _, _ => st
  end.

Definition handlers_for (name : EventName)
    (ls : list (EventName * Handler)) : list Handler :=
  map snd (filter (fun p => fst p = name) ls).

(** The event emitter: an event runs the handlers registered under its
    name, in registration order; with none registered it is dropped. *)
Definition deliver (st : St) (ev : PageEvent) : St :=
  fold_left (fun s h => run_handler h ev s)
    (handlers_for (event_name ev) (listeners st)) (log (Emitted ev) st).

(** What the registered handlers append for a batch of events. *)
Definition handler_console (ev : PageEvent) (h : Handler) : list string :=
  match h, ev with
  | append_console_message, EvConsole msg => [format_console msg]
  | _, _ => []
  end.

Definition handler_errors (ev : PageEvent) (h : Handler) : list string :=
  match h, ev with
  | append_page_error, EvPageError exc => [str_exn exc]
  | _, _ => []
  end.

Definition captured_console (ls : list (EventName * Handler))
    (evs : list PageEvent) : list string :=
  flat_map (fun ev =>
    flat_map (handler_console ev) (handlers_for (event_name ev) ls)) evs.

Definition captured_errors (ls : list (EventName * Handler))
    (evs : list PageEvent) : list string :=
  flat_map (fun ev =>
    flat_map (handler_errors ev) (handlers_for (event_name ev) ls)) evs.

(** What a successful call leaves behind besides its return value:
    [page.screenshot(path=p)] saves the image to [p], replacing the file. *)
Definition call_effect (c : Call) (r : Response) (st : St) : St :=
  match c with
  | screenshot (Some path) _ => write_file path (resp_image r) st
  | _ => st
  end.

(** One Playwright call. *)
Definition call (c : Call) : M unit :=
  fun st =>
    let '(r, w') := respond c (world st) in
    let st1 := log (Called c) (set_world w' st) in
    let st2 := fold_left deliver (resp_events r) st1 in
    match resp_raises r with
    | None => (Ok tt, log (Returned c) (call_effect c r st2))
    | Some e => (Raise e, log (Threw c e) st2)
    end.

(** [print(line)], to a standard output that takes the line.  [Stdout.print]
    below is [print] to a standard output that may refuse it. *)
Definition print (line : string) : M unit :=
  fun st => (Ok tt, log (Printed line) st).

(** [page.on(name, handler)] *)
Definition page_on (name : EventName) (h : Handler) : M unit :=
  fun st =>
    (Ok tt,
     log (Listening name)
       {| world := world st; trace := trace st;
          listeners := listeners st ++ [(name, h)];
          console_messages := console_messages st;
          page_errors := page_errors st; fs := fs st |}).

Definition get_console_messages : M (list string) :=
  fun st => (Ok (console_messages st), st).

Definition get_page_errors : M (list string) :=
  fun st => (Ok (page_errors st), st).

(** [console_messages = []] and [page_errors = []] *)
Definition new_lists : M unit :=
  fun st =>
    (Ok tt,
     {| world := world st; trace := trace st; listeners := listeners st;
        console_messages := []; page_errors := []; fs := fs st |}).

(** [try: body / except Exception as e: handler e] *)
Definition try_except {A} (body : M A) (handler : Exn -> M A) : M A :=
  fun st =>
    match body st with
    | (Ok a, st') => (Ok a, st')
    | (Raise e, st') =>
        if is_Exception e then handler e st' else (Raise e, st')
    end.

(** [try: body / finally: final] *)
Definition try_finally {A} (body : M A) (final : M unit) : M A :=
  fun st =>
    let '(r, st') := body st in
    match final st' with
    | (Ok _, st'') => (r, st'')
    | (Raise e, st'') => (Raise e, st'')
    end.

(** [with sync_playwright() as p: body].  The context manager's exit does
    not suppress an exception of the body. *)
Definition with_sync_playwright {A} (body : M A) : M A :=
  bind (call sync_playwright_enter)
    (fun _ => try_finally body (call sync_playwright_exit)).

(** [for x in xs: print(x)] *)
Fixpoint print_each (xs : list string) : M unit :=
  match xs with
  | [] => ret tt
  | x :: xs' => bind (print x) (fun _ => print_each xs')
  end.

Definition initial (w : W) (files : gmap string (list byte)) : St :=
  {| world := w; trace := []; listeners := [];
     console_messages := []; page_errors := []; fs := files |}.

(** Running a script as a process. *)
Definition run (main : M unit) (w : W) (files : gmap string (list byte))
    : Res unit * St :=
  main (initial w files).

End Runtime.

Arguments St W : clear implicits.
Arguments M W A : clear implicits.

Declare Scope script_scope.
Delimit Scope script_scope with script.
Notation "x <- m ;; k" := (bind m (fun x => k))
  (at level 100, m at next level, k at level 200, right associativity)
  : script_scope.
Notation "m ;; k" := (bind m (fun _ => k))
  (at level 100, k at level 200, right associativity) : script_scope.
Local Open Scope script_scope.

(** The interpreter's exit status: 0 when the script runs to its end, 1
    after an uncaught exception (130 for an uncaught [KeyboardInterrupt]). *)
Definition exit_code (r : Res unit) : Z :=
  match r with
  | Ok _ => 0
  | Raise KeyboardInterrupt => 130
  | Raise _ => 1
  end.

(** Projections of a trace. *)
Definition stdout (tr : list Obs) : list string :=
  omap (fun o => match o with Printed s => Some s | _ => None end) tr.

Definition calls (tr : list Obs) : list Call :=
  omap (fun o => match o with Called c => Some c | _ => None end) tr.

Definition returns (tr : list Obs) : list Call :=
  omap (fun o => match o with Returned c => Some c | _ => None end) tr.

Definition throws (tr : list Obs) : list (Call * Exn) :=
  omap (fun o => match o with Threw c e => Some (c, e) | _ => None end) tr.

Definition saved (tr : list Obs) : list (string * list byte) :=
  omap (fun o => match o with Saved p d => Some (p, d) | _ => None end) tr.

Definition listens (tr : list Obs) : list EventName :=
  omap (fun o => match o with Listening n => Some n | _ => None end) tr.

Definition emitted (tr : list Obs) : list PageEvent :=
  omap (fun o => match o with Emitted ev => Some ev | _ => None end) tr.

Definition console_of (evs : list PageEvent) : list ConsoleMessage :=
  omap (fun ev => match ev with EvConsole m => Some m | _ => None end) evs.

Definition page_errors_of (evs : list PageEvent) : list Exn :=
  omap (fun ev => match ev with EvPageError e => Some e | _ => None end) evs.

(** How many times [browser.close()] was executed. *)
Definition closes (tr : list Obs) : nat :=
  length (filter (fun c => c = close) (calls tr)).

(** How many times the [sync_playwright] scope was left. *)
Definition scope_exits (tr : list Obs) : nat :=
  length (filter (fun c => c = sync_playwright_exit) (calls tr)).

(** ** The scripts *)

Module verify_simulation.
Section Script.
Context {W : Type}.
Variable respond : Call -> W -> Response * W.
(** [os.path.abspath], which depends on the process's working directory. *)
Variable abspath : string -> string.

Definition screenshot_path : string :=
  "jules-scratch/verification/simulation-running.png".

(** Lines 20-40: the body of the [try]. *)
Definition steps : M W unit :=
  let file_path := abspath "index.html" in
  call respond (goto ("file://" +:+ file_path)) ;;
  call respond
    (expect_to_be_visible (get_by_role "heading" "Line Bridge Simulator")) ;;
  let start_button := locator "#start-button" in
  call respond (click start_button) ;;
  let line_count_display := locator "#line-count" in
  call respond (expect_not_to_have_text line_count_display "0" (Some 5000)) ;;
  call respond (screenshot (Some screenshot_path) None) ;;
  print ("Screenshot saved to " +:+ screenshot_path).

(** Line 43: the [except Exception as e] handler. *)
Definition on_error (e : Exn) : M W unit :=
  print (nl +:+ "An error occurred during Playwright execution: "
            +:+ str_exn e).

(** Lines 46-60: the two report sections of the [finally] block. *)
Definition report : M W unit :=
  print (nl +:+ "--- Browser Console Logs ---") ;;
  msgs <- get_console_messages ;;
  match msgs with
  | _ :: _ => print_each msgs
  | [] => print "No console messages were captured."
  end ;;
  print (nl +:+ "--- Browser Page Errors ---") ;;
  errs <- get_page_errors ;;
  match errs with
  | _ :: _ => print_each errs
  | [] => print "No page errors were captured."
  end.

(** Lines 45-62: the [finally] block. *)
Definition teardown : M W unit :=
  report ;; call respond close.

Definition run_verification : M W unit :=
  with_sync_playwright respond
    (call respond (launch true) ;;
     call respond new_page ;;
     new_lists ;;
     page_on console append_console_message ;;
     page_on pageerror append_page_error ;;
     try_finally (try_except steps on_error) teardown).

Definition main : M W unit := run_verification.
End Script.
End verify_simulation.

Module verify_boundary_conditions.
Section Script.
Context {W : Type}.
Variable respond : Call -> W -> Response * W.
Variable abspath : string -> string.

Definition screenshot_path : string :=
  "jules-scratch/verification/verification.png".

Definition run_verification : M W unit :=
  with_sync_playwright respond
    (call respond (launch true) ;;
     call respond new_page ;;
     let file_path := "file://" +:+ abspath "index.html" in
     call respond (goto file_path) ;;
     let boundary_dropdown := locator "#boundary-condition" in
     call respond (scroll_into_view_if_needed boundary_dropdown) ;;
     call respond (select_option boundary_dropdown "top-to-bottom") ;;
     call respond (expect_to_have_value boundary_dropdown "top-to-bottom") ;;
     call respond (screenshot (Some screenshot_path) None) ;;
     call respond close ;;
     print ("Screenshot saved to " +:+ screenshot_path)).

Definition main : M W unit := run_verification.
End Script.
End verify_boundary_conditions.

Module verify_clusters.
Section Script.
Context {W : Type}.
Variable respond : Call -> W -> Response * W.
Variable abspath : string -> string.

Definition screenshot_path : string :=
  "jules-scratch/verification/verification.png".

Definition run_verification : M W unit :=
  call respond (launch true) ;;
  call respond new_page ;;
  let file_path := "file://" +:+ abspath "index.html" in
  call respond (goto file_path) ;;
  let start_button := locator "#start-button" in
  call respond (click start_button) ;;
  call respond (wait_for_timeout 3000) ;;
  let pause_button := locator "#pause-button" in
  call respond (click pause_button) ;;
  call respond (screenshot (Some screenshot_path) None) ;;
  call respond close ;;
  print ("Screenshot saved to " +:+ screenshot_path).

(** Lines 32-33, at module level. *)
Definition main : M W unit :=
  with_sync_playwright respond run_verification.
End Script.
End verify_clusters.

(** ** The teardown report as the specification words it

    Two labelled sections, console logs then page errors, each either
    enumerating the captured entries or stating that none were captured. *)

Definition section_lines (label none_captured : string)
    (entries : list string) : list string :=
  label :: match entries with
           | [] => [none_captured]
           | _ :: _ => entries
           end.

Definition report_lines (console_log error_log : list string) : list string :=
  section_lines (nl +:+ "--- Browser Console Logs ---")
    "No console messages were captured." console_log
  ++ section_lines (nl +:+ "--- Browser Page Errors ---")
       "No page errors were captured." error_log.

(** ** The anatomy of a run

    What one call contributes to the trace, as a function of the browser's
    answer, and what a sequence of calls contributes when it stops at the
    first call that raises. *)

Definition saved_path (c : Call) : option string :=
  match c with
  | screenshot (Some path) _ => Some path
  | _ => None
  end.

Definition effect_obs (c : Call) (r : Response) : list Obs :=
  match c with
  | screenshot (Some path) _ => [Saved path (resp_image r)]
  | _ => []
  end.

Definition call_obs (c : Call) (r : Response) : list Obs :=
  Called c :: map Emitted (resp_events r)
  ++ match resp_raises r with
     | Some e => [Threw c e]
     | None => effect_obs c r ++ [Returned c]
     end.

Definition call_result (r : Response) : Res unit :=
  match resp_raises r with
  | Some e => Raise e
  | None => Ok tt
  end.

Definition write_all (ws : list (string * list byte))
    (files : gmap string (list byte)) : gmap string (list byte) :=
  fold_left (fun m pd => <[pd.1 := pd.2]> m) ws files.

Inductive ran : list Call -> Res unit -> list Obs -> Prop :=
| ran_nil : ran [] (Ok tt) []
| ran_ok c cs r res t :
    resp_raises r = None -> ran cs res t ->
    ran (c :: cs) res (call_obs c r ++ t)
| ran_raise c cs r e :
    resp_raises r = Some e -> ran (c :: cs) (Raise e) (call_obs c r).

(** The listeners of [verify_simulation.py] after lines 16 and 17. *)
Definition both_sinks : list (EventName * Handler) :=
  [(console, append_console_message); (pageerror, append_page_error)].

(** [st'] is [st] after the observations [t], with the listeners of [st]
    in place throughout. *)
Definition after {W : Type} (st' st : St W) (t : list Obs) : Prop :=
  trace st' = trace st ++ t /\
  listeners st' = listeners st /\
  console_messages st' =
    console_messages st ++ captured_console (listeners st) (emitted t) /\
  page_errors st' =
    page_errors st ++ captured_errors (listeners st) (emitted t) /\
  fs st' = write_all (saved t) (fs st).

Section Sequences.
Context {W : Type}.
Variable respond : Call -> W -> Response * W.

(** A run of consecutive calls. *)
Fixpoint call_all (cs : list Call) : M W unit :=
  match cs with
  | [] => ret tt
  | c :: cs' => call respond c ;; call_all cs'
  end.
End Sequences.

(** ** The calls each script issues, in order *)

Section CallLists.
Variable abspath : string -> string.

(** [verify_boundary_conditions.py], lines 6-29. *)
Definition boundary_calls : list Call :=
  [ launch true; new_page;
    goto ("file://" +:+ abspath "index.html");
    scroll_into_view_if_needed (locator "#boundary-condition");
    select_option (locator "#boundary-condition") "top-to-bottom";
    expect_to_have_value (locator "#boundary-condition") "top-to-bottom";
    screenshot (Some verify_boundary_conditions.screenshot_path) None;
    close ].

(** [verify_clusters.py], lines 5-29. *)
Definition clusters_calls : list Call :=
  [ launch true; new_page;
    goto ("file://" +:+ abspath "index.html");
    click (locator "#start-button");
    wait_for_timeout 3000;
    click (locator "#pause-button");
    screenshot (Some verify_clusters.screenshot_path) None;
    close ].

(** [verify_simulation.py], lines 24-39, the calls inside the [try]. *)
Definition simulation_steps : list Call :=
  [ goto ("file://" +:+ abspath "index.html");
    expect_to_be_visible (get_by_role "heading" "Line Bridge Simulator");
    click (locator "#start-button");
    expect_not_to_have_text (locator "#line-count") "0" (Some 5000);
    screenshot (Some verify_simulation.screenshot_path) None ].
End CallLists.

(** The body of the [with] block of [verify_simulation.py], with its runs
    of consecutive calls gathered. *)
Definition simulation_session {W : Type} (respond : Call -> W -> Response * W)
    (abspath : string -> string) : M W unit :=
  call_all respond [launch true; new_page] ;;
  new_lists ;;
  page_on console append_console_message ;;
  page_on pageerror append_page_error ;;
  try_finally
    (try_except
       (call_all respond (simulation_steps abspath) ;;
        print ("Screenshot saved to " +:+ verify_simulation.screenshot_path))
       (verify_simulation.on_error))
    (verify_simulation.report ;; call respond close).

(** The result of [try: ... finally: ...] when the body ends in [body] and
    the [finally] block in [final]. *)
Definition first_raise (final body : Res unit) : Res unit :=
  match final with
  | Raise e => Raise e
  | Ok _ => body
  end.

(** The result of [try: ... except Exception: ...] around a body ending in
    [res], with a handler that does not raise. *)
Definition caught (res : Res unit) : Res unit :=
  match res with
  | Raise e => if is_Exception e then Ok tt else Raise e
  | Ok _ => Ok tt
  end.

Definition printed_if_ok (res : Res unit) (line : string) : list Obs :=
  match res with
  | Ok _ => [Printed line]
  | Raise _ => []
  end.

(** What [verify_simulation.py] prints on leaving the [try], lines 40, 43. *)
Definition error_line (e : Exn) : string :=
  nl +:+ "An error occurred during Playwright execution: " +:+ str_exn e.

Definition outcome_lines (res : Res unit) : list Obs :=
  match res with
  | Ok _ =>
      [Printed ("Screenshot saved to " +:+ verify_simulation.screenshot_path)]
  | Raise e => if is_Exception e then [Printed (error_line e)] else []
  end.

(** ** The browser and the target page

    Neither the automation library nor [index.html] is part of the sources
    at hand.  The module below is the browser driving the target page as the
    specification describes them; the scripts above do not depend on it. *)

Module Browser.

(** Modelled from the spec: the library's default bounds on a wait, 30 s
    for locating the target of an action and 5 s for an assertion. *)
Definition default_timeout : Z := 30000.
Definition expect_timeout : Z := 5000.

(** Modelled from the spec: the elements of the missing [index.html] that
    the scripts address, by the selectors the scripts use. *)
Definition heading : Locator := get_by_role "heading" "Line Bridge Simulator".
Definition start_button : Locator := locator "#start-button".
Definition pause_button : Locator := locator "#pause-button".
Definition status_display : Locator := locator "#line-count".
Definition dropdown : Locator := locator "#boundary-condition".

(** Modelled from the spec: the live state of a session, with the time in
    milliseconds since the document loaded. *)
Record PageState := {
  now : Z;
  loaded : bool;
  started : option Z;
  paused : option Z;
  selected : string
}.

(** Modelled from the spec: the browser runtime and the target page, the
    missing [index.html]: which document loads, when each element is
    attached and visible, what the status display shows before the
    simulation starts and after it has run for a number of milliseconds,
    the dropdown's options, and the rendering. *)
Record Setup := {
  browser_installed : bool;
  document_url : string;
  on_load : list PageEvent;
  visible_from : Locator -> option Z;
  initial_text : string;
  text_after_start : Z -> string;
  dropdown_options : list string;
  initial_value : string;
  render : PageState -> list byte;
  output_writable : bool
}.

(** Modelled from the spec: a session before any document has loaded. *)
Definition fresh (p : Setup) : PageState :=
  {| now := 0; loaded := false; started := None; paused := None;
     selected := initial_value p |}.

(** Modelled from the spec: the same session at another time. *)
Definition at_time (t : Z) (s : PageState) : PageState :=
  {| now := t; loaded := loaded s; started := started s;
     paused := paused s; selected := selected s |}.

(** Modelled from the spec: the status display keeps its initial text
    until the simulation is started, then shows what the simulation has
    reached, and stops changing when the simulation is paused. *)
Definition display_text (p : Setup) (s : PageState) (t : Z) : string :=
  match started s with
  | None => initial_text p
  | Some t0 =>
      text_after_start p
        (match paused s with Some tp => tp | None => t end - t0)
  end.

(** Modelled from the spec: an element of the missing [index.html] is
    visible once the document has loaded and the element is attached. *)
Definition is_visible (p : Setup) (s : PageState) (l : Locator) (t : Z)
    : bool :=
  loaded s &&
  match visible_from p l with
  | Some d => bool_decide (d <= t)
  | None => false
  end.

(** Modelled from the spec: a bounded wait polls a condition until it
    holds or the timeout elapses.  The result is the time at which the
    condition was first seen to hold. *)
Fixpoint poll (cond : Z -> bool) (t : Z) (fuel : nat) : option Z :=
  if cond t then Some t
  else match fuel with
       | O => None
       | S fuel' => poll cond (t + 1) fuel'
       end.

(** Modelled from the spec: the library's wait, bounded by a timeout in
    milliseconds. *)
Definition bounded_wait (cond : Z -> bool) (t timeout : Z) : option Z :=
  poll cond t (Z.to_nat timeout).

(** Modelled from the spec: the library's answer to a call that returns
    without a page event. *)
Definition quiet : Response :=
  {| resp_events := []; resp_raises := None; resp_image := [] |}.

(** Modelled from the spec: the library's answer to a call that raises. *)
Definition raising (e : Exn) : Response :=
  {| resp_events := []; resp_raises := Some e; resp_image := [] |}.

(** Modelled from the spec: locating an element waits up to a bounded
    timeout for it to attach and become visible and fails with
    [ElementNotFoundError] if the timeout elapses. *)
Definition locate (p : Setup) (s : PageState) (l : Locator)
    : Exn + PageState :=
  match bounded_wait (is_visible p s l) (now s) default_timeout with
  | Some t => inr (at_time t s)
  | None => inl (ElementNotFoundError "Timeout 30000ms exceeded.")
  end.

(** Modelled from the spec: an assertion waits up to its own bounded
    timeout for the post-condition and fails with [AssertionError]
    carrying the expected and the observed value. *)
Definition assert_within (p : Setup) (s : PageState) (l : Locator)
    (holds : Z -> bool) (timeout : Z) (expected : string)
    (observed : Z -> string) : Response * PageState :=
  match bounded_wait (fun t => is_visible p s l t && holds t)
          (now s) timeout with
  | Some t => (quiet, at_time t s)
  | None =>
      (raising (AssertionError expected (observed (now s + timeout))),
       at_time (now s + timeout) s)
  end.

(** Modelled from the spec: the text of an element of the missing
    [index.html]; only the status display's text is looked at. *)
Definition element_text (p : Setup) (s : PageState) (l : Locator) (t : Z)
    : string :=
  if decide (l = status_display) then display_text p s t
  else EmptyString.

(** Modelled from the spec: the value of a form element of the missing
    [index.html]; only the dropdown has one. *)
Definition element_value (s : PageState) (l : Locator) : string :=
  if decide (l = dropdown) then selected s else EmptyString.

(** Modelled from the spec: a click on the start button starts the
    simulation, a click on the pause button pauses a running one. *)
Definition press (l : Locator) (s : PageState) : PageState :=
  if decide (l = start_button) then
    match started s with
    | None =>
        {| now := now s; loaded := loaded s; started := Some (now s);
           paused := paused s; selected := selected s |}
    | Some _ => s
    end
  else if decide (l = pause_button) then
    match started s, paused s with
    | Some _, None =>
        {| now := now s; loaded := loaded s; started := started s;
           paused := Some (now s); selected := selected s |}
    | _, _ => s
    end
  else s.

(** Modelled from the spec: choosing an option sets the dropdown's
    value. *)
Definition choose (v : string) (s : PageState) : PageState :=
  {| now := now s; loaded := loaded s; started := started s;
     paused := paused s; selected := v |}.

(** Modelled from the spec: the browser's answer to each call. *)
Definition respond (p : Setup) (c : Call) (s : PageState)
    : Response * PageState :=
  match c with
  | sync_playwright_enter | sync_playwright_exit | new_page | close =>
      (quiet, s)
  | launch _ =>
      if browser_installed p then (quiet, s)
      else (raising (EnvironmentError "no browser runtime"), s)
  | goto url =>
      if decide (url = document_url p) then
        ({| resp_events := on_load p; resp_raises := None;
            resp_image := [] |},
         {| now := 0; loaded := true; started := None; paused := None;
            selected := initial_value p |})
      else (raising (NavigationError url), s)
  | wait_for_timeout ms => (quiet, at_time (now s + ms) s)
  | click l =>
      match locate p s l with
      | inr s' => (quiet, press l s')
      | inl e => (raising e, at_time (now s + default_timeout) s)
      end
  | scroll_into_view_if_needed l =>
      match locate p s l with
      | inr s' => (quiet, s')
      | inl e => (raising e, at_time (now s + default_timeout) s)
      end
  | select_option l v =>
      match locate p s l with
      | inr s' =>
          if decide (l = dropdown /\ v ∈ dropdown_options p)
          then (quiet, choose v s')
          else (raising (ElementNotFoundError v),
                at_time (now s + default_timeout) s)
      | inl e => (raising e, at_time (now s + default_timeout) s)
      end
  | expect_to_be_visible l =>
      assert_within p s l (fun _ => true) expect_timeout
        "visible" (fun _ => "hidden")
  | expect_not_to_have_text l text timeout =>
      assert_within p s l
        (fun t => bool_decide (element_text p s l t <> text))
        (default expect_timeout timeout)
        ("not " +:+ text) (element_text p s l)
  | expect_to_have_value l v =>
      assert_within p s l
        (fun _ => bool_decide (element_value s l = v))
        expect_timeout v (fun _ => element_value s l)
  | screenshot _ _ =>
      if output_writable p then
        ({| resp_events := []; resp_raises := None;
            resp_image := render p s |}, s)
      else (raising (OtherException "cannot write the screenshot"), s)
  end.

(** Modelled from the spec: what the target page must provide.  The
    elements are exposed from the moment the document has loaded, the
    status display starts at ["0"], and a started simulation changes it
    within the assertion's 5000 ms. *)
Record contract (abspath : string -> string) (p : Setup) : Prop := {
  has_browser : browser_installed p = true;
  loads : document_url p = "file://" +:+ abspath "index.html";
  exposes : forall l,
    l ∈ [heading; start_button; pause_button; status_display; dropdown] ->
    visible_from p l = Some 0;
  starts_at_zero : initial_text p = "0";
  starts_counting : exists d,
    0 <= d <= 5000 /\ text_after_start p d <> "0";
  offers_top_to_bottom : "top-to-bottom" ∈ dropdown_options p;
  writes : output_writable p = true
}.

(** Modelled from the spec: the document of the missing [index.html] is
    loaded and time has not run backwards. *)
Definition ready (s : PageState) : Prop := loaded s = true /\ 0 <= now s.

(** Modelled from the spec: the element of the missing [index.html]
    becomes visible within the default timeout of loading. *)
Definition resolves (p : Setup) (l : Locator) : Prop :=
  exists d, visible_from p l = Some d /\ d <= default_timeout.

(** Modelled from the spec: the same setup with another status display. *)
Definition with_display (p : Setup) (initial : string)
    (after_start : Z -> string) : Setup :=
  {| browser_installed := browser_installed p;
     document_url := document_url p;
     on_load := on_load p;
     visible_from := visible_from p;
     initial_text := initial;
     text_after_start := after_start;
     dropdown_options := dropdown_options p;
     initial_value := initial_value p;
     render := render p;
     output_writable := output_writable p |}.

End Browser.

(** ** Replaying a script against the browser

    The browser's side of a run, without the interpreter: the answers to a
    sequence of calls, up to the first that raises, with the observations
    they leave and the world they end in. *)

Record Replay (W : Type) := {
  result : Res unit;
  observed : list Obs;
  final : W
}.
Arguments result {W} _.
Arguments observed {W} _.
Arguments final {W} _.

(** How a replay ends: its result and the world it leaves. *)
Definition ends {W : Type} (d : Replay W) : Res unit * W :=
  (result d, final d).

Section Replaying.
Context {W : Type}.
Variable respond : Call -> W -> Response * W.
Variable abspath : string -> string.

Fixpoint drive (cs : list Call) (w : W) : Replay W :=
  match cs with
  | [] => {| result := Ok tt; observed := []; final := w |}
  | c :: cs' =>
      let '(r, w1) := respond c w in
      match resp_raises r with
      | Some e =>
          {| result := Raise e; observed := call_obs c r; final := w1 |}
      | None =>
          let rest := drive cs' w1 in
          {| result := result rest;
             observed := call_obs c r ++ observed rest;
             final := final rest |}
      end
  end.

(** A script that enters the scope, issues [cs] and prints [line]. *)
Definition scoped_replay (cs : list Call) (line : string) (w : W)
    : Replay W :=
  let entered := drive [sync_playwright_enter] w in
  match result entered with
  | Raise e => entered
  | Ok _ =>
      let body := drive cs (final entered) in
      let left := drive [sync_playwright_exit] (final body) in
      {| result := first_raise (result left) (result body);
         observed := observed entered ++ observed body
                     ++ printed_if_ok (result body) line ++ observed left;
         final := final left |}
  end.

(** [verify_simulation.py]. *)
Definition simulation_replay (w : W) : Replay W :=
  let entered := drive [sync_playwright_enter] w in
  match result entered with
  | Raise e => entered
  | Ok _ =>
      let acquired := drive [launch true; new_page] (final entered) in
      match result acquired with
      | Raise e =>
          let left := drive [sync_playwright_exit] (final acquired) in
          {| result := first_raise (result left) (Raise e);
             observed := observed entered ++ observed acquired
                         ++ observed left;
             final := final left |}
      | Ok _ =>
          let steps := drive (simulation_steps abspath) (final acquired) in
          let closed := drive [close] (final steps) in
          let left := drive [sync_playwright_exit] (final closed) in
          let cm := map format_console (console_of (emitted (observed steps)))
          in
          let pe := map str_exn (page_errors_of (emitted (observed steps)))
          in
          {| result := first_raise (result left)
                         (first_raise (result closed)
                            (caught (result steps)));
             observed := observed entered ++ observed acquired
                         ++ [Listening console; Listening pageerror]
                         ++ observed steps ++ outcome_lines (result steps)
                         ++ map Printed (report_lines cm pe)
                         ++ observed closed ++ observed left;
             final := final left |}
      end
  end.
End Replaying.

(** The interpreter's run [out] from the state [st] is the replay [d]. *)
Definition replays {W : Type} (out : Res unit * St W) (st : St W)
    (d : Replay W) : Prop :=
  fst out = result d /\
  world (snd out) = final d /\
  after (snd out) st (observed d).

(** ** The three scripts side by side *)

Inductive Script := simulation | boundary_conditions | clusters.

Definition main_of {W : Type} (s : Script)
    (respond : Call -> W -> Response * W) (abspath : string -> string)
    : M W unit :=
  match s with
  | simulation => verify_simulation.main respond abspath
  | boundary_conditions => verify_boundary_conditions.main respond abspath
  | clusters => verify_clusters.main respond abspath
  end.

(** The [screenshot_path] of each script. *)
Definition screenshot_path_of (s : Script) : string :=
  match s with
  | simulation => verify_simulation.screenshot_path
  | boundary_conditions => verify_boundary_conditions.screenshot_path
  | clusters => verify_clusters.screenshot_path
  end.

(** Whether a call asks for a screenshot of the full scrollable page rather
    than of the visible viewport: [full_page] is false unless passed. *)
Definition requests_full_page (c : Call) : bool :=
  match c with
  | screenshot _ full_page => default false full_page
  | _ => false
  end.

(** The locators a run resolves: the targets of its actions and
    assertions. *)
Definition call_locator (c : Call) : option Locator :=
  match c with
  | expect_to_be_visible l | expect_not_to_have_text l _ _
  | expect_to_have_value l _ | click l | scroll_into_view_if_needed l
  | select_option l _ => Some l
  | _ => None
  end.

Definition locators_of (cs : list Call) : list Locator :=
  omap call_locator cs.

(** Whether a call is an [expect(...)] assertion. *)
Definition is_expect (c : Call) : bool :=
  match c with
  | expect_to_be_visible _ | expect_not_to_have_text _ _ _
  | expect_to_have_value _ _ => true
  | _ => false
  end.

(** ** Sample browsers

    Concrete answers on which the theorems below are exercised. *)

Module Samples.
Definition abspath (name : string) : string := "/repo/" +:+ name.

Definition png : list byte := [x89; x50; x4e; x47].

Definition quiet : Response :=
  {| resp_events := []; resp_raises := None; resp_image := [] |}.

Definition raising (e : Exn) : Response :=
  {| resp_events := []; resp_raises := Some e; resp_image := [] |}.

(** A page that loads, logs on loading, and does all that is asked. *)
Definition healthy (c : Call) (w : unit) : Response * unit :=
  match c with
  | goto _ =>
      ({| resp_events :=
            [EvConsole {| msg_type := "log"; msg_text := "ready" |};
             EvPageError (OtherException "ReferenceError: x is not defined");
             EvConsole {| msg_type := "warning"; msg_text := "slow" |}];
          resp_raises := None; resp_image := [] |}, w)
  | screenshot _ _ =>
      ({| resp_events := []; resp_raises := None; resp_image := png |}, w)
  | _ => (quiet, w)
  end.

(** The document does not load. *)
Definition broken_navigation (c : Call) (w : unit) : Response * unit :=
  match c with
  | goto url => (raising (NavigationError url), w)
  | _ => healthy c w
  end.

(** The status display never leaves ["0"]. *)
Definition frozen_display (c : Call) (w : unit) : Response * unit :=
  match c with
  | expect_not_to_have_text _ text _ =>
      (raising (AssertionError ("not " +:+ text) text), w)
  | _ => healthy c w
  end.

(** A target page that keeps to the contract: everything is there on
    loading and the first line is drawn 800 ms after the start. *)
Definition demo_page : Browser.Setup :=
  {| Browser.browser_installed := true;
     Browser.document_url := "file:///repo/index.html";
     Browser.on_load :=
       [EvConsole {| msg_type := "log"; msg_text := "ready" |}];
     Browser.visible_from := fun _ => Some 0;
     Browser.initial_text := "0";
     Browser.text_after_start :=
       fun d => if bool_decide (d < 800) then "0" else "12";
     Browser.dropdown_options := ["left-to-right"; "top-to-bottom"];
     Browser.initial_value := "left-to-right";
     Browser.render := fun _ => png;
     Browser.output_writable := true |}.

(** The same page with a simulation that never draws a line. *)
Definition idle_page : Browser.Setup :=
  {| Browser.browser_installed := true;
     Browser.document_url := "file:///repo/index.html";
     Browser.on_load := [];
     Browser.visible_from := fun _ => Some 0;
     Browser.initial_text := "0";
     Browser.text_after_start := fun _ => "0";
     Browser.dropdown_options := ["left-to-right"; "top-to-bottom"];
     Browser.initial_value := "left-to-right";
     Browser.render := fun _ => png;
     Browser.output_writable := true |}.

(** Both assertions fail. *)
Definition failing_assertions (c : Call) (w : unit) : Response * unit :=
  match c with
  | expect_to_have_value _ v =>
      (raising (AssertionError v "left-to-right"), w)
  | expect_not_to_have_text _ text _ =>
      (raising (AssertionError ("not " +:+ text) text), w)
  | _ => healthy c w
  end.

(** The dropdown keeps its old value. *)
Definition stuck_dropdown (c : Call) (w : unit) : Response * unit :=
  match c with
  | expect_to_have_value _ v =>
      (raising (AssertionError v "left-to-right"), w)
  | _ => healthy c w
  end.
End Samples.

(** The Playwright calls of each script in program order, between entering
    and leaving the [sync_playwright] scope. *)
Definition script_calls (s : Script) (abspath : string -> string)
    : list Call :=
  match s with
  | simulation =>
      [launch true; new_page] ++ simulation_steps abspath ++ [close]
  | boundary_conditions => boundary_calls abspath
  | clusters => clusters_calls abspath
  end.

(** The line each script prints once its screenshot is taken. *)
Definition confirmation_of (s : Script) : string :=
  "Screenshot saved to " +:+ screenshot_path_of s.

(** ** Standard output as a device

    [print] above writes to a standard output that takes every line.
    When standard output is closed, or is a pipe whose reader is gone,
    Python's [print] raises ([ValueError], [BrokenPipeError], [OSError]:
    all of class [Exception]).  Below are the three scripts once more,
    statement for statement, printing to such a standard output: whether
    a line can be written is up to the world. *)

Module Stdout.
Section Print.
Context {W : Type}.
(** [sys.stdout.write(line)]: the exception it raises, if any. *)
Variable write : string -> W -> option Exn.

(** [print(line)] *)
Definition print (line : string) : M W unit :=
  fun st =>
    match write line (world st) with
    | None => (Ok tt, log (Printed line) st)
    | Some e => (Raise e, st)
    end.

(** [for x in xs: print(x)] *)
Fixpoint print_each (xs : list string) : M W unit :=
  match xs with
  | [] => ret tt
  | x :: xs' => bind (print x) (fun _ => print_each xs')
  end.
End Print.

Module verify_simulation.
Section Script.
Context {W : Type}.
Variable respond : Call -> W -> Response * W.
Variable write : string -> W -> option Exn.
Variable abspath : string -> string.

Definition screenshot_path : string :=
  "jules-scratch/verification/simulation-running.png".

(** Lines 20-40: the body of the [try]. *)
Definition steps : M W unit :=
  let file_path := abspath "index.html" in
  call respond (goto ("file://" +:+ file_path)) ;;
  call respond
    (expect_to_be_visible (get_by_role "heading" "Line Bridge Simulator")) ;;
  let start_button := locator "#start-button" in
  call respond (click start_button) ;;
  let line_count_display := locator "#line-count" in
  call respond (expect_not_to_have_text line_count_display "0" (Some 5000)) ;;
  call respond (screenshot (Some screenshot_path) None) ;;
  print write ("Screenshot saved to " +:+ screenshot_path).

(** Line 43: the [except Exception as e] handler. *)
Definition on_error (e : Exn) : M W unit :=
  print write (nl +:+ "An error occurred during Playwright execution: "
                  +:+ str_exn e).

(** Lines 46-60: the two report sections of the [finally] block. *)
Definition report : M W unit :=
  print write (nl +:+ "--- Browser Console Logs ---") ;;
  msgs <- get_console_messages ;;
  match msgs with
  | _ :: _ => print_each write msgs
  | [] => print write "No console messages were captured."
  end ;;
  print write (nl +:+ "--- Browser Page Errors ---") ;;
  errs <- get_page_errors ;;
  match errs with
  | _ :: _ => print_each write errs
  | [] => print write "No page errors were captured."
  end.

(** Lines 45-62: the [finally] block. *)
Definition teardown : M W unit :=
  report ;; call respond close.

Definition run_verification : M W unit :=
  with_sync_playwright respond
    (call respond (launch true) ;;
     call respond new_page ;;
     new_lists ;;
     page_on console append_console_message ;;
     page_on pageerror append_page_error ;;
     try_finally (try_except steps on_error) teardown).

Definition main : M W unit := run_verification.
End Script.
End verify_simulation.

Module verify_boundary_conditions.
Section Script.
Context {W : Type}.
Variable respond : Call -> W -> Response * W.
Variable write : string -> W -> option Exn.
Variable abspath : string -> string.

Definition screenshot_path : string :=
  "jules-scratch/verification/verification.png".

Definition run_verification : M W unit :=
  with_sync_playwright respond
    (call respond (launch true) ;;
     call respond new_page ;;
     let file_path := "file://" +:+ abspath "index.html" in
     call respond (goto file_path) ;;
     let boundary_dropdown := locator "#boundary-condition" in
     call respond (scroll_into_view_if_needed boundary_dropdown) ;;
     call respond (select_option boundary_dropdown "top-to-bottom") ;;
     call respond (expect_to_have_value boundary_dropdown "top-to-bottom") ;;
     call respond (screenshot (Some screenshot_path) None) ;;
     call respond close ;;
     print write ("Screenshot saved to " +:+ screenshot_path)).

Definition main : M W unit := run_verification.
End Script.
End verify_boundary_conditions.

Module verify_clusters.
Section Script.
Context {W : Type}.
Variable respond : Call -> W -> Response * W.
Variable write : string -> W -> option Exn.
Variable abspath : string -> string.

Definition screenshot_path : string :=
  "jules-scratch/verification/verification.png".

Definition run_verification : M W unit :=
  call respond (launch true) ;;
  call respond new_page ;;
  let file_path := "file://" +:+ abspath "index.html" in
  call respond (goto file_path) ;;
  let start_button := locator "#start-button" in
  call respond (click start_button) ;;
  call respond (wait_for_timeout 3000) ;;
  let pause_button := locator "#pause-button" in
  call respond (click pause_button) ;;
  call respond (screenshot (Some screenshot_path) None) ;;
  call respond close ;;
  print write ("Screenshot saved to " +:+ screenshot_path).

(** Lines 32-33, at module level. *)
Definition main : M W unit :=
  with_sync_playwright respond run_verification.
End Script.
End verify_clusters.

Definition main_of {W : Type} (s : Script)
    (respond : Call -> W -> Response * W) (write : string -> W -> option Exn)
    (abspath : string -> string) : M W unit :=
  match s with
  | simulation => verify_simulation.main respond write abspath
  | boundary_conditions =>
      verify_boundary_conditions.main respond write abspath
  | clusters => verify_clusters.main respond write abspath
  end.

(** A standard output that takes every line, and one that is closed. *)
Definition writable {W : Type} (line : string) (w : W) : option Exn := None.

Definition closed {W : Type} (line : string) (w : W) : option Exn :=
  Some (OtherException "I/O operation on closed file.").

(** The body of the [with] block of [verify_simulation.py], with its runs
    of consecutive calls gathered. *)
Definition simulation_session {W : Type}
    (respond : Call -> W -> Response * W) (write : string -> W -> option Exn)
    (abspath : string -> string) : M W unit :=
  call_all respond [launch true; new_page] ;;
  new_lists ;;
  page_on console append_console_message ;;
  page_on pageerror append_page_error ;;
  try_finally
    (try_except
       (call_all respond (simulation_steps abspath) ;;
        print write
          ("Screenshot saved to " +:+ verify_simulation.screenshot_path))
       (verify_simulation.on_error write))
    (verify_simulation.report write ;; call respond close).

(** A computation that does nothing but print. *)
Definition prints_only {W A : Type} (m : M W A) : Prop :=
  forall st, exists ls,
    world (snd (m st)) = world st /\ after (snd (m st)) st (map Printed ls).
End Stdout.

(** ** Browsers that fail *)

Module Faults.
(** The user interrupts the run while the start button is clicked. *)
Definition interrupted (c : Call) (w : unit) : Response * unit :=
  match c with
  | click _ => (Samples.raising KeyboardInterrupt, w)
  | _ => Samples.healthy c w
  end.

(** The browser process is gone when it is asked to close. *)
Definition close_fails (c : Call) (w : unit) : Response * unit :=
  match c with
  | close => (Samples.raising (OtherException "Target closed"), w)
  | _ => Samples.healthy c w
  end.

(** No browser runtime is installed. *)
Definition no_browser (c : Call) (w : unit) : Response * unit :=
  match c with
  | launch _ => (Samples.raising (EnvironmentError "no browser runtime"), w)
  | _ => Samples.healthy c w
  end.

(** The driver fails to start. *)
Definition no_driver (c : Call) (w : unit) : Response * unit :=
  match c with
  | sync_playwright_enter =>
      (Samples.raising (EnvironmentError "driver not found"), w)
  | _ => Samples.healthy c w
  end.
(** The page logs an error while the browser closes. *)
Definition noisy_close (c : Call) (w : unit) : Response * unit :=
  match c with
  | close =>
      ({| resp_events :=
            [EvConsole {| msg_type := "error"; msg_text := "late" |}];
          resp_raises := None; resp_image := [] |}, w)
  | _ => Samples.healthy c w
  end.
End Faults.

(** * Properties *)

(** ** The runtime in closed form *)

Section RuntimeFacts.
Context {W : Type}.
Variable respond : Call -> W -> Response * W.

Lemma run_handlers_eq (ev : PageEvent) (hs : list Handler) (st : St W) :
  fold_left (fun s h => run_handler h ev s) hs st =
  {| world := world st; trace := trace st; listeners := listeners st;
     console_messages :=
       console_messages st ++ flat_map (handler_console ev) hs;
     page_errors := page_errors st ++ flat_map (handler_errors ev) hs;
     fs := fs st |}.
Proof.
  revert st. induction hs as [|h hs IH]; intros st.
  - destruct st; cbn. by rewrite !app_nil_r.
  - cbn [fold_left flat_map]. rewrite IH.
    destruct h, ev; cbn; by rewrite <- ?app_assoc, ?app_nil_r.
Qed.

Lemma deliver_eq (st : St W) (ev : PageEvent) :
  deliver st ev =
  {| world := world st; trace := trace st ++ [Emitted ev];
     listeners := listeners st;
     console_messages :=
       console_messages st ++ captured_console (listeners st) [ev];
     page_errors := page_errors st ++ captured_errors (listeners st) [ev];
     fs := fs st |}.
Proof.
  unfold deliver. rewrite run_handlers_eq. cbn.
  by rewrite !app_nil_r.
Qed.

Lemma deliver_all_eq (evs : list PageEvent) (st : St W) :
  fold_left deliver evs st =
  {| world := world st; trace := trace st ++ map Emitted evs;
     listeners := listeners st;
     console_messages :=
       console_messages st ++ captured_console (listeners st) evs;
     page_errors := page_errors st ++ captured_errors (listeners st) evs;
     fs := fs st |}.
Proof.
  revert st. induction evs as [|ev evs IH]; intros st.
  - destruct st; cbn. by rewrite !app_nil_r.
  - cbn [fold_left]. rewrite IH, deliver_eq. cbn.
    by rewrite <- !app_assoc, ?app_nil_r.
Qed.

Lemma captured_console_app ls evs1 evs2 :
  captured_console ls (evs1 ++ evs2) =
  captured_console ls evs1 ++ captured_console ls evs2.
Proof. unfold captured_console. by rewrite flat_map_app. Qed.

Lemma captured_errors_app ls evs1 evs2 :
  captured_errors ls (evs1 ++ evs2) =
  captured_errors ls evs1 ++ captured_errors ls evs2.
Proof. unfold captured_errors. by rewrite flat_map_app. Qed.

(** With no listener registered every event is dropped. *)
Lemma captured_console_nil evs : captured_console [] evs = [].
Proof. induction evs; cbn; auto. Qed.

Lemma captured_errors_nil evs : captured_errors [] evs = [].
Proof. induction evs; cbn; auto. Qed.

Lemma captured_console_both evs :
  captured_console both_sinks evs = map format_console (console_of evs).
Proof.
  induction evs as [|ev evs IH]; [done|].
  change (captured_console both_sinks (ev :: evs))
    with (flat_map (handler_console ev)
            (handlers_for (event_name ev) both_sinks)
          ++ captured_console both_sinks evs).
  rewrite IH. by destruct ev.
Qed.

Lemma captured_errors_both evs :
  captured_errors both_sinks evs = map str_exn (page_errors_of evs).
Proof.
  induction evs as [|ev evs IH]; [done|].
  change (captured_errors both_sinks (ev :: evs))
    with (flat_map (handler_errors ev)
            (handlers_for (event_name ev) both_sinks)
          ++ captured_errors both_sinks evs).
  rewrite IH. by destruct ev.
Qed.
End RuntimeFacts.

(** ** Projections of a trace are list homomorphisms *)

Lemma emitted_map evs : emitted (map Emitted evs) = evs.
Proof. induction evs as [|ev evs IH]; [done|]. cbn. by f_equal. Qed.

Lemma stdout_map ls : stdout (map Printed ls) = ls.
Proof. induction ls as [|l ls IH]; [done|]. cbn. by f_equal. Qed.

Lemma omap_emitted_none {A} (f : Obs -> option A) (evs : list PageEvent) :
  (forall ev, f (Emitted ev) = None) -> omap f (map Emitted evs) = [].
Proof.
  intros H. induction evs as [|ev evs IH]; [done|].
  cbn. by rewrite H.
Qed.

Lemma omap_printed_none {A} (f : Obs -> option A) (ls : list string) :
  (forall s, f (Printed s) = None) -> omap f (map Printed ls) = [].
Proof.
  intros H. induction ls as [|l ls IH]; [done|].
  cbn. by rewrite H.
Qed.

Lemma calls_app t1 t2 : calls (t1 ++ t2) = calls t1 ++ calls t2.
Proof. apply omap_app. Qed.
Lemma returns_app t1 t2 : returns (t1 ++ t2) = returns t1 ++ returns t2.
Proof. apply omap_app. Qed.
Lemma throws_app t1 t2 : throws (t1 ++ t2) = throws t1 ++ throws t2.
Proof. apply omap_app. Qed.
Lemma saved_app t1 t2 : saved (t1 ++ t2) = saved t1 ++ saved t2.
Proof. apply omap_app. Qed.
Lemma listens_app t1 t2 : listens (t1 ++ t2) = listens t1 ++ listens t2.
Proof. apply omap_app. Qed.
Lemma emitted_app t1 t2 : emitted (t1 ++ t2) = emitted t1 ++ emitted t2.
Proof. apply omap_app. Qed.
Lemma stdout_app t1 t2 : stdout (t1 ++ t2) = stdout t1 ++ stdout t2.
Proof. apply omap_app. Qed.

Lemma calls_printed ls : calls (map Printed ls) = [].
Proof. by apply omap_printed_none. Qed.
Lemma returns_printed ls : returns (map Printed ls) = [].
Proof. by apply omap_printed_none. Qed.
Lemma throws_printed ls : throws (map Printed ls) = [].
Proof. by apply omap_printed_none. Qed.
Lemma saved_printed ls : saved (map Printed ls) = [].
Proof. by apply omap_printed_none. Qed.
Lemma listens_printed ls : listens (map Printed ls) = [].
Proof. by apply omap_printed_none. Qed.
Lemma emitted_printed ls : emitted (map Printed ls) = [].
Proof. by apply omap_printed_none. Qed.

Create Rewrite HintDb trace.
#[global] Hint Rewrite calls_app returns_app throws_app saved_app listens_app
  emitted_app stdout_app calls_printed returns_printed throws_printed
  saved_printed listens_printed emitted_printed stdout_map : trace.

(** ** What one call and a sequence of calls contribute *)

Lemma calls_call_obs c r : calls (call_obs c r) = [c].
Proof.
  unfold call_obs, calls. cbn. rewrite omap_app, omap_emitted_none by done.
  destruct (resp_raises r); [done|].
  by destruct c as [| | | | | | | | | | | |[p|] fp|].
Qed.

Lemma returns_call_obs c r :
  returns (call_obs c r) =
  match resp_raises r with Some _ => [] | None => [c] end.
Proof.
  unfold call_obs, returns. cbn. rewrite omap_app, omap_emitted_none by done.
  destruct (resp_raises r); [done|].
  by destruct c as [| | | | | | | | | | | |[p|] fp|].
Qed.

Lemma throws_call_obs c r :
  throws (call_obs c r) =
  match resp_raises r with Some e => [(c, e)] | None => [] end.
Proof.
  unfold call_obs, throws. cbn. rewrite omap_app, omap_emitted_none by done.
  destruct (resp_raises r); [done|].
  by destruct c as [| | | | | | | | | | | |[p|] fp|].
Qed.

Lemma emitted_call_obs c r : emitted (call_obs c r) = resp_events r.
Proof.
  unfold call_obs.
  change (emitted (Called c :: ?l)) with (emitted l).
  rewrite emitted_app, emitted_map.
  destruct (resp_raises r); [by rewrite app_nil_r|].
  destruct c as [| | | | | | | | | | | |[p|] fp|]; by rewrite app_nil_r.
Qed.

Lemma saved_call_obs c r :
  saved (call_obs c r) =
  match resp_raises r, c with
  | None, screenshot (Some p) _ => [(p, resp_image r)]
  | _, _ => []
  end.
Proof.
  unfold call_obs, saved. cbn. rewrite omap_app, omap_emitted_none by done.
  destruct (resp_raises r); [done|].
  by destruct c as [| | | | | | | | | | | |[p|] fp|].
Qed.

Lemma stdout_call_obs c r : stdout (call_obs c r) = [].
Proof.
  unfold call_obs, stdout. cbn. rewrite omap_app, omap_emitted_none by done.
  destruct (resp_raises r); [done|].
  by destruct c as [| | | | | | | | | | | |[p|] fp|].
Qed.

Lemma listens_call_obs c r : listens (call_obs c r) = [].
Proof.
  unfold call_obs, listens. cbn. rewrite omap_app, omap_emitted_none by done.
  destruct (resp_raises r); [done|].
  by destruct c as [| | | | | | | | | | | |[p|] fp|].
Qed.

Lemma ran_quiet cs res t : ran cs res t -> stdout t = [] /\ listens t = [].
Proof.
  induction 1 as [|c cs r res t Hr _ [IH1 IH2]|c cs r e Hr];
    autorewrite with trace;
    rewrite ?stdout_call_obs, ?listens_call_obs, ?IH1, ?IH2; done.
Qed.

Lemma ran_ok_inv cs t :
  ran cs (Ok tt) t -> calls t = cs /\ returns t = cs /\ throws t = [].
Proof.
  intros H. remember (Ok tt) as res eqn:Hres.
  induction H as [|c cs r res t Hr _ IH|c cs r e Hr]; [done| |done].
  destruct (IH Hres) as (IH1 & IH2 & IH3).
  autorewrite with trace.
  rewrite calls_call_obs, returns_call_obs, throws_call_obs, Hr, IH1, IH2, IH3.
  done.
Qed.

Lemma ran_raise_inv cs e t :
  ran cs (Raise e) t ->
  exists pre c rest,
    cs = pre ++ c :: rest /\ calls t = pre ++ [c] /\ returns t = pre /\
    throws t = [(c, e)].
Proof.
  intros H. remember (Raise e) as res eqn:Hres.
  induction H as [|c cs r res t Hr _ IH|c cs r e' Hr]; [done| |].
  - destruct (IH Hres) as (pre & c' & rest & -> & IH1 & IH2 & IH3).
    exists (c :: pre), c', rest. autorewrite with trace.
    rewrite calls_call_obs, returns_call_obs, throws_call_obs, Hr, IH1, IH2, IH3.
    done.
  - injection Hres as ->. exists [], c, cs.
    by rewrite calls_call_obs, returns_call_obs, throws_call_obs, Hr.
Qed.

Lemma ran_saved cs res t :
  ran cs res t -> map fst (saved t) = omap saved_path (returns t).
Proof.
  induction 1 as [|c cs r res t Hr _ IH|c cs r e Hr]; [done| |].
  - autorewrite with trace. rewrite map_app, omap_app, IH. f_equal.
    rewrite saved_call_obs, returns_call_obs, Hr.
    by destruct c as [| | | | | | | | | | | |[p|] fp|].
  - by rewrite saved_call_obs, returns_call_obs, Hr.
Qed.

Lemma ran_saved_nil cs res t :
  ran cs res t -> omap saved_path cs = [] -> saved t = [].
Proof.
  induction 1 as [|c cs r res t Hr _ IH|c cs r e Hr]; intros Hcs; [done| |].
  - autorewrite with trace. rewrite saved_call_obs, Hr.
    destruct c as [| | | | | | | | | | | |[p|] fp|]; cbn in Hcs; try done;
      by rewrite IH.
  - rewrite saved_call_obs, Hr.
    by destruct c as [| | | | | | | | | | | |[p|] fp|].
Qed.

Lemma write_all_app ws1 ws2 files :
  write_all (ws1 ++ ws2) files = write_all ws2 (write_all ws1 files).
Proof. apply fold_left_app. Qed.

Section Anatomy.
Context {W : Type}.
Variable respond : Call -> W -> Response * W.

Lemma after_refl (st : St W) : after st st [].
Proof. unfold after. cbn. by rewrite !app_nil_r. Qed.

Lemma after_trans (st0 st1 st2 : St W) t1 t2 :
  after st1 st0 t1 -> after st2 st1 t2 -> after st2 st0 (t1 ++ t2).
Proof.
  intros (Ht1 & Hl1 & Hc1 & Hp1 & Hf1) (Ht2 & Hl2 & Hc2 & Hp2 & Hf2).
  unfold after. autorewrite with trace.
  rewrite Ht2, Ht1, Hl2, Hl1, Hc2, Hc1, Hp2, Hp1, Hf2, Hf1, Hl1.
  rewrite captured_console_app, captured_errors_app, write_all_app.
  by rewrite <- !app_assoc.
Qed.

Lemma print_after (line : string) (st : St W) :
  after (log (Printed line) st) st [Printed line].
Proof. unfold after. cbn. by rewrite !app_nil_r. Qed.

(** One call: its result and its observations are those of the browser's
    answer. *)
Lemma call_after (c : Call) (st : St W) :
  fst (call respond c st) = call_result (fst (respond c (world st))) /\
  after (snd (call respond c st)) st
    (call_obs c (fst (respond c (world st)))).
Proof.
  unfold call, call_result, after.
  destruct (respond c (world st)) as [r w']. cbn [fst snd].
  rewrite deliver_all_eq, emitted_call_obs, saved_call_obs.
  unfold call_obs.
  destruct (resp_raises r) as [e|];
    [|destruct c as [| | | | | | | | | | | |[path|] fp|]];
    unfold log, call_effect, write_file; cbn;
    by rewrite <- ?app_assoc.
Qed.

Lemma call_world (c : Call) (st : St W) :
  world (snd (call respond c st)) = snd (respond c (world st)).
Proof.
  unfold call. destruct (respond c (world st)) as [r w']. cbn [fst snd].
  rewrite deliver_all_eq.
  destruct (resp_raises r) as [e|];
    [|destruct c as [| | | | | | | | | | | |[path|] fp|]]; done.
Qed.

Lemma call_drive (c : Call) (st : St W) :
  replays (call respond c st) st (drive respond [c] (world st)).
Proof.
  destruct (call_after c st) as [Hres Haft].
  pose proof (call_world c st) as Hw.
  unfold replays, call_result in *. cbn [drive].
  destruct (respond c (world st)) as [r w']. cbn [fst snd] in *.
  destruct (resp_raises r) as [e|]; cbn [result observed final];
    by rewrite ?app_nil_r.
Qed.

(** A sequence of calls stops at the first call that raises. *)
Lemma call_all_drive (cs : list Call) (st : St W) :
  replays (call_all respond cs st) st (drive respond cs (world st)).
Proof.
  revert st. induction cs as [|c cs IH]; intros st.
  - unfold replays. cbn. split_and!; try done. apply after_refl.
  - destruct (call_after c st) as [Hres Haft].
    pose proof (call_world c st) as Hw.
    cbn [call_all drive]. unfold bind, replays, call_result in *.
    destruct (respond c (world st)) as [r w']. cbn [fst snd] in *.
    destruct (call respond c st) as [[[]|e] st1]; cbn [fst snd] in *;
      destruct (resp_raises r) as [e'|]; try done.
    destruct (IH st1) as (H1 & H2 & H3). rewrite Hw in *.
    cbn [result observed final]. split_and!; try done.
    by eapply after_trans.
Qed.

Lemma drive_ran (cs : list Call) (w : W) :
  ran cs (result (drive respond cs w)) (observed (drive respond cs w)).
Proof.
  revert w. induction cs as [|c cs IH]; intros w; [constructor|].
  cbn [drive]. destruct (respond c w) as [r w1].
  destruct (resp_raises r) as [e|] eqn:Hr; cbn [result observed].
  - by constructor.
  - by constructor.
Qed.
End Anatomy.

(** ** The scripts as scoped sequences of calls *)

(** Case analysis on the calls of two computations that issue the same
    calls in the same order. *)
Ltac lockstep :=
  unfold with_sync_playwright, try_finally, try_except, bind;
  cbn [call_all]; unfold bind, ret, new_lists, page_on, print;
  cbv beta iota zeta;
  repeat match goal with
    | |- context [@call ?W ?r ?c ?s] =>
        destruct (@call W r c s) as [[[]|?] ?];
        cbv beta iota zeta; try reflexivity
    end.

Section Shapes.
Context {W : Type}.
Variable respond : Call -> W -> Response * W.
Variable abspath : string -> string.

Lemma boundary_shape (st : St W) :
  verify_boundary_conditions.main respond abspath st =
  with_sync_playwright respond
    (call_all respond (boundary_calls abspath) ;;
     print ("Screenshot saved to "
            +:+ verify_boundary_conditions.screenshot_path)) st.
Proof.
  unfold verify_boundary_conditions.main,
    verify_boundary_conditions.run_verification, boundary_calls.
  lockstep.
Qed.

Lemma clusters_shape (st : St W) :
  verify_clusters.main respond abspath st =
  with_sync_playwright respond
    (call_all respond (clusters_calls abspath) ;;
     print ("Screenshot saved to " +:+ verify_clusters.screenshot_path)) st.
Proof.
  unfold verify_clusters.main, verify_clusters.run_verification,
    clusters_calls.
  lockstep.
Qed.

Lemma simulation_shape (st : St W) :
  verify_simulation.main respond abspath st =
  with_sync_playwright respond (simulation_session respond abspath) st.
Proof.
  unfold verify_simulation.main, verify_simulation.run_verification,
    verify_simulation.steps, verify_simulation.teardown,
    simulation_session, simulation_steps.
  lockstep.
Qed.
End Shapes.

Lemma calls_outcome_lines res : calls (outcome_lines res) = [].
Proof. destruct res as [[]|e]; cbn; [done|]. by destruct (is_Exception e). Qed.

Lemma returns_outcome_lines res : returns (outcome_lines res) = [].
Proof. destruct res as [[]|e]; cbn; [done|]. by destruct (is_Exception e). Qed.

Lemma throws_outcome_lines res : throws (outcome_lines res) = [].
Proof. destruct res as [[]|e]; cbn; [done|]. by destruct (is_Exception e). Qed.

Lemma emitted_outcome_lines res : emitted (outcome_lines res) = [].
Proof. destruct res as [[]|e]; cbn; [done|]. by destruct (is_Exception e). Qed.

Lemma saved_outcome_lines res : saved (outcome_lines res) = [].
Proof. destruct res as [[]|e]; cbn; [done|]. by destruct (is_Exception e). Qed.

Lemma listens_outcome_lines res : listens (outcome_lines res) = [].
Proof. destruct res as [[]|e]; cbn; [done|]. by destruct (is_Exception e). Qed.

#[global] Hint Rewrite calls_outcome_lines returns_outcome_lines
  throws_outcome_lines emitted_outcome_lines saved_outcome_lines
  listens_outcome_lines : trace.

(** ** The anatomy of the three scripts *)

Section ScriptAnatomy.
Context {W : Type}.
Variable respond : Call -> W -> Response * W.
Variable abspath : string -> string.

Lemma print_each_eq (xs : list string) (st : St W) :
  print_each xs st =
  (Ok tt,
   {| world := world st; trace := trace st ++ map Printed xs;
      listeners := listeners st;
      console_messages := console_messages st;
      page_errors := page_errors st; fs := fs st |}).
Proof.
  revert st. induction xs as [|x xs IH]; intros st.
  - destruct st; cbn. by rewrite app_nil_r.
  - cbn [print_each]. unfold bind, print. rewrite IH. cbn.
    by rewrite <- app_assoc.
Qed.

(** The report of [verify_simulation.py] never raises, touches nothing but
    standard output, and prints what the specification describes. *)
Lemma report_eq (st : St W) :
  verify_simulation.report st =
  (Ok tt,
   {| world := world st;
      trace := trace st
        ++ map Printed (report_lines (console_messages st) (page_errors st));
      listeners := listeners st;
      console_messages := console_messages st;
      page_errors := page_errors st; fs := fs st |}).
Proof.
  unfold verify_simulation.report, report_lines, section_lines.
  destruct st as [w tr ls cm pe files].
  destruct cm as [|m cm], pe as [|e pe];
    unfold bind, print, get_console_messages, get_page_errors, log;
    cbn [world trace listeners console_messages page_errors fs];
    rewrite ?print_each_eq;
    cbn [world trace listeners console_messages page_errors fs];
    rewrite ?print_each_eq;
    cbn [world trace listeners console_messages page_errors fs];
    f_equal; f_equal; cbn [map app];
    rewrite ?map_app, <- ?app_assoc; reflexivity.
Qed.

Lemma printed_after (ls : list string) (st st' : St W) :
  trace st' = trace st ++ map Printed ls ->
  listeners st' = listeners st ->
  console_messages st' = console_messages st ->
  page_errors st' = page_errors st -> fs st' = fs st ->
  after st' st (map Printed ls).
Proof.
  intros Ht Hl Hc Hp Hf. unfold after. autorewrite with trace.
  cbn. by rewrite Ht, Hl, Hc, Hp, Hf, !app_nil_r.
Qed.

(** The [with sync_playwright()] block around any body. *)
Lemma scope_replay (body : M W unit) (st0 : St W) :
  let out := with_sync_playwright respond body st0 in
  let entered := drive respond [sync_playwright_enter] (world st0) in
  match result entered with
  | Raise _ => replays out st0 entered
  | Ok _ =>
      exists s1,
        world s1 = final entered /\ after s1 st0 (observed entered) /\
        let left := drive respond [sync_playwright_exit]
                      (world (snd (body s1))) in
        replays out (snd (body s1))
          {| result := first_raise (result left) (fst (body s1));
             observed := observed left; final := final left |}
  end.
Proof.
  cbn zeta. unfold with_sync_playwright, try_finally, bind.
  destruct (call_drive respond sync_playwright_enter st0) as (H1 & H2 & H3).
  destruct (call respond sync_playwright_enter st0) as [[[]|e] s1];
    cbn [fst snd] in *; rewrite <- H1; [|done].
  exists s1. repeat (split; [done|]).
  destruct (body s1) as [r s2]. cbn [fst snd].
  destruct (call_drive respond sync_playwright_exit s2) as (E1 & E2 & E3).
  destruct (call respond sync_playwright_exit s2) as [[[]|e2] s3];
    cbn [fst snd] in *; unfold replays; cbn [fst snd result observed final];
    by rewrite <- E1.
Qed.

(** A script that enters the [sync_playwright] scope, issues the calls
    [cs] and prints one line. *)
Lemma scoped_replay_eq (cs : list Call) (line : string) (st0 : St W) :
  replays
    (with_sync_playwright respond (call_all respond cs ;; print line) st0)
    st0 (scoped_replay respond cs line (world st0)).
Proof.
  pose proof (scope_replay (call_all respond cs ;; print line) st0) as H.
  cbn zeta in H. unfold scoped_replay.
  destruct (result (drive respond [sync_playwright_enter] (world st0)))
    as [[]|e]; [|done].
  destruct H as (s1 & Hw & Ha & H). rewrite <- Hw.
  revert H. unfold bind.
  destruct (call_all_drive respond cs s1) as (B1 & B2 & B3).
  destruct (call_all respond cs s1) as [[[]|e1] s2]; cbn [fst snd] in *;
    rewrite <- B1, <- B2; cbn [printed_if_ok app print fst snd log world];
    intros (R1 & R2 & R3); unfold replays; cbn [result observed final];
    repeat (split; [done|]).
  - exact (after_trans _ _ _ _ _ Ha
             (after_trans _ _ _ _ _ B3
                (after_trans _ _ _ _ _ (print_after line s2) R3))).
  - exact (after_trans _ _ _ _ _ Ha (after_trans _ _ _ _ _ B3 R3)).
Qed.

Lemma scoped_anatomy (cs : list Call) (line : string) (st0 : St W) :
  let out := with_sync_playwright respond
               (call_all respond cs ;; print line) st0 in
  (exists e t0,
     ran [sync_playwright_enter] (Raise e) t0 /\
     fst out = Raise e /\ after (snd out) st0 t0) \/
  (exists t0 res t1 res2 t2,
     ran [sync_playwright_enter] (Ok tt) t0 /\ ran cs res t1 /\
     ran [sync_playwright_exit] res2 t2 /\
     after (snd out) st0 (t0 ++ t1 ++ printed_if_ok res line ++ t2) /\
     fst out = first_raise res2 res).
Proof.
  cbn zeta. destruct (scoped_replay_eq cs line st0) as (H1 & _ & H3).
  revert H1 H3. unfold scoped_replay.
  pose proof (drive_ran respond [sync_playwright_enter] (world st0)) as R0.
  destruct (result (drive respond [sync_playwright_enter] (world st0)))
    as [[]|e] eqn:E0; cbn [result observed]; intros H1 H3.
  - right.
    set (w1 := final (drive respond [sync_playwright_enter] (world st0)))
      in *.
    exists (observed (drive respond [sync_playwright_enter] (world st0))),
      (result (drive respond cs w1)), (observed (drive respond cs w1)),
      (result (drive respond [sync_playwright_exit]
                 (final (drive respond cs w1)))),
      (observed (drive respond [sync_playwright_exit]
                   (final (drive respond cs w1)))).
    split; [exact R0|].
    split; [apply drive_ran|]. split; [apply drive_ran|]. by split.
  - left.
    exists e, (observed (drive respond [sync_playwright_enter] (world st0))).
    rewrite E0 in H1. by split.
Qed.

(** Lines 19-43 of [verify_simulation.py]: the [try] with its handler. *)
Lemma guarded_steps_replay (st : St W) :
  let d := drive respond (simulation_steps abspath) (world st) in
  replays
    (try_except
       (call_all respond (simulation_steps abspath) ;;
        print ("Screenshot saved to " +:+ verify_simulation.screenshot_path))
       verify_simulation.on_error st)
    st
    {| result := caught (result d);
       observed := observed d ++ outcome_lines (result d);
       final := final d |}.
Proof.
  cbn zeta. unfold try_except, bind, replays.
  destruct (call_all_drive respond (simulation_steps abspath) st)
    as (B1 & B2 & B3).
  destruct (call_all respond _ st) as [[[]|e] s1]; cbn [fst snd] in *;
    rewrite <- B1, <- B2; cbn [result observed final caught outcome_lines].
  - repeat (split; [done|]). eapply after_trans; [done|]. apply print_after.
  - destruct (is_Exception e); cbn [fst snd];
      unfold verify_simulation.on_error, print;
      cbn [fst snd log world]; repeat (split; [done|]).
    + eapply after_trans; [done|]. apply print_after.
    + by rewrite app_nil_r.
Qed.

(** Lines 45-62: the [finally] block. *)
Lemma teardown_replay (st : St W) :
  let d := drive respond [close] (world st) in
  replays ((verify_simulation.report ;; call respond close) st) st
    {| result := result d;
       observed :=
         map Printed (report_lines (console_messages st) (page_errors st))
         ++ observed d;
       final := final d |}.
Proof.
  cbn zeta. unfold bind, replays. rewrite report_eq.
  match goal with
  | |- context [call respond close ?s] =>
      destruct (call_drive respond close s) as (C1 & C2 & C3);
      destruct (call respond close s) as [r s2]
  end.
  cbn [fst snd world result observed final] in *.
  repeat (split; [done|]).
  eapply after_trans; [|exact C3]. by apply printed_after.
Qed.

(** The body of the [with] block of [verify_simulation.py]. *)
Lemma session_replay (s1 : St W) :
  listeners s1 = [] ->
  let out := simulation_session respond abspath s1 in
  let acquired := drive respond [launch true; new_page] (world s1) in
  match result acquired with
  | Raise _ => replays out s1 acquired
  | Ok _ =>
      let steps := drive respond (simulation_steps abspath) (final acquired)
      in
      let closed := drive respond [close] (final steps) in
      let cm := map format_console (console_of (emitted (observed steps))) in
      let pe := map str_exn (page_errors_of (emitted (observed steps))) in
      let tail := observed steps ++ outcome_lines (result steps)
                  ++ map Printed (report_lines cm pe) ++ observed closed in
      fst out = first_raise (result closed) (caught (result steps)) /\
      world (snd out) = final closed /\
      trace (snd out) =
        trace s1 ++ observed acquired
        ++ [Listening console; Listening pageerror] ++ tail /\
      listeners (snd out) = both_sinks /\
      console_messages (snd out) =
        map format_console (console_of (emitted tail)) /\
      page_errors (snd out) = map str_exn (page_errors_of (emitted tail)) /\
      fs (snd out) =
        write_all (saved (observed acquired ++ observed steps)) (fs s1)
  end.
Proof.
  intros Hl. cbn zeta.
  destruct (simulation_session respond abspath s1) as [r sf] eqn:E.
  cbn [fst snd]. unfold simulation_session in E. unfold bind at 1 in E.
  destruct (call_all_drive respond [launch true; new_page] s1)
    as (A1 & A2 & A3).
  destruct (call_all respond [launch true; new_page] s1) as [[[]|e1] s2];
    cbn [fst snd] in *; rewrite <- A1.
  2: { by injection E as <- <-. }
  rewrite <- A2. clear A1.
  destruct A3 as (T1 & L1 & _ & _ & F1). rewrite Hl in L1.
  unfold bind, new_lists, page_on, log, try_finally in E.
  cbn [fst snd world trace listeners console_messages page_errors fs] in E.
  rewrite L1 in E. cbn [app] in E.
  match type of E with
  | context [try_except ?b ?h ?s] =>
      destruct (guarded_steps_replay s) as (G1 & G2 & G3);
      change (try_except _ _ s) with (try_except b h s) in G1, G2, G3;
      destruct (try_except b h s) as [r3 s4]
  end.
  cbn [fst snd world result observed final] in *. subst r3.
  destruct (teardown_replay s4) as (C1 & C2 & C3).
  unfold bind in C1, C2, C3. rewrite report_eq in E, C1, C2, C3.
  destruct (call respond close _) as [r5 s5].
  cbn [fst snd world result observed final] in *. rewrite G2 in *.
  assert (r = first_raise r5 (caught
            (result (drive respond (simulation_steps abspath) (world s2))))
          /\ sf = s5) as [-> ->].
  { destruct r5 as [[]|?]; by injection E as <- <-. }
  clear E. subst r5. split; [done|]. split; [done|].
  destruct (after_trans _ _ _ _ _ G3 C3) as (Tf & Lf & Cf & Pf & Ff).
  destruct G3 as (_ & _ & C4 & P4 & _).
  cbn [world trace listeners console_messages page_errors fs app]
    in Tf, Lf, Cf, Pf, Ff, C4, P4.
  autorewrite with trace in Cf, Pf, Ff, C4, P4.
  rewrite ?app_nil_r in C4, P4.
  change [(console, append_console_message);
          (pageerror, append_page_error)] with both_sinks in *.
  rewrite captured_console_both in C4, Cf.
  rewrite captured_errors_both in P4, Pf.
  rewrite C4, P4 in Tf.
  autorewrite with trace.
  rewrite Tf, Lf, Cf, Pf, Ff, F1, T1.
  rewrite (ran_saved_nil _ _ _ (drive_ran respond [close] _)) by done.
  rewrite ?app_nil_r.
  rewrite write_all_app, <- !app_assoc. cbn [app].
  repeat split; done.
Qed.

(** [verify_simulation.py] as a process is its replay. *)
Lemma simulation_replay_eq (w : W) (files : gmap string (list byte)) :
  let out := run (verify_simulation.main respond abspath) w files in
  let rp := simulation_replay respond abspath w in
  fst out = result rp /\ world (snd out) = final rp /\
  trace (snd out) = observed rp.
Proof.
  cbn zeta. unfold run. rewrite simulation_shape.
  pose proof (scope_replay (simulation_session respond abspath)
                (initial w files)) as H.
  cbn zeta in H. unfold simulation_replay. cbn [world initial] in H.
  destruct (result (drive respond [sync_playwright_enter] w)) as [[]|e].
  2: { destruct H as (H1 & H2 & (H3 & _)). by rewrite H1, H2, H3. }
  destruct H as (s1 & Hw & (T0 & L0 & _) & (H1 & H2 & (H3 & _))).
  cbn [trace initial listeners app] in T0, L0.
  cbn [result observed final] in H1, H2, H3.
  rewrite H1, H2, H3. rewrite <- Hw.
  pose proof (session_replay s1 L0) as Hs. cbn zeta in Hs.
  destruct (result (drive respond [launch true; new_page] (world s1)))
    as [[]|e1] eqn:E1; cbn [result observed final].
  - destruct Hs as (-> & -> & -> & _). rewrite T0.
    split; [done|]. split; [done|]. by rewrite <- !app_assoc.
  - destruct Hs as (-> & -> & (-> & _)). rewrite T0, E1.
    split; [done|]. split; [done|]. by rewrite <- !app_assoc.
Qed.

(** The whole of [verify_simulation.py] as a process. *)
Lemma simulation_anatomy (w : W) (files : gmap string (list byte)) :
  let out := run (verify_simulation.main respond abspath) w files in
  (exists e t0,
     ran [sync_playwright_enter] (Raise e) t0 /\
     fst out = Raise e /\ trace (snd out) = t0) \/
  (exists t0 e t1 res2 t2,
     ran [sync_playwright_enter] (Ok tt) t0 /\
     ran [launch true; new_page] (Raise e) t1 /\
     ran [sync_playwright_exit] res2 t2 /\
     fst out = first_raise res2 (Raise e) /\
     trace (snd out) = t0 ++ t1 ++ t2) \/
  (exists t0 t1 res ts resc tc res2 t2,
     ran [sync_playwright_enter] (Ok tt) t0 /\
     ran [launch true; new_page] (Ok tt) t1 /\
     ran (simulation_steps abspath) res ts /\
     ran [close] resc tc /\
     ran [sync_playwright_exit] res2 t2 /\
     fst out = first_raise res2 (first_raise resc (caught res)) /\
     let cm := map format_console (console_of (emitted ts)) in
     let pe := map str_exn (page_errors_of (emitted ts)) in
     let tail := ts ++ outcome_lines res
                 ++ map Printed (report_lines cm pe) ++ tc ++ t2 in
     trace (snd out) =
       t0 ++ t1 ++ [Listening console; Listening pageerror] ++ tail /\
     console_messages (snd out) =
       map format_console (console_of (emitted tail)) /\
     page_errors (snd out) = map str_exn (page_errors_of (emitted tail)) /\
     fs (snd out) = write_all (saved ts) files).
Proof.
  cbn zeta. unfold run. rewrite simulation_shape.
  pose proof (scope_replay (simulation_session respond abspath)
                (initial w files)) as H.
  cbn zeta in H. cbn [world initial] in H.
  pose proof (drive_ran respond [sync_playwright_enter] w) as R0.
  destruct (result (drive respond [sync_playwright_enter] w))
    as [[]|e] eqn:E0.
  2: { left. destruct H as (H1 & _ & (H3 & _)).
       exists e, (observed (drive respond [sync_playwright_enter] w)).
       split; [exact R0|]. rewrite H1, E0. by split. }
  right.
  destruct H as (s1 & Hw & (T0 & L0 & _ & _ & F0)
                 & (H1 & _ & (T2 & L2 & C2 & P2 & F2))).
  cbn [trace initial listeners fs app] in T0, L0, F0.
  cbn [result observed final] in H1, T2, C2, P2, F2.
  rewrite H1, T2, C2, P2, F2. clear H1 T2 C2 P2 F2.
  pose proof (drive_ran respond [sync_playwright_exit]
                (world (snd (simulation_session respond abspath s1)))) as R2.
  revert R2.
  generalize (drive respond [sync_playwright_exit]
                (world (snd (simulation_session respond abspath s1)))).
  intros left R2.
  pose proof (session_replay s1 L0) as Hs. cbn zeta in Hs.
  pose proof (drive_ran respond [launch true; new_page] (world s1)) as R1.
  destruct (result (drive respond [launch true; new_page] (world s1)))
    as [[]|e1] eqn:E1.
  - right. destruct Hs as (-> & _ & -> & -> & -> & -> & ->).
    set (w2 := final (drive respond [launch true; new_page] (world s1)))
      in *.
    set (steps := drive respond (simulation_steps abspath) w2) in *.
    exists (observed (drive respond [sync_playwright_enter] w)),
      (observed (drive respond [launch true; new_page] (world s1))),
      (result steps), (observed steps),
      (result (drive respond [close] (final steps))),
      (observed (drive respond [close] (final steps))),
      (result left), (observed left).
    split; [exact R0|]. split; [exact R1|].
    split; [apply drive_ran|]. split; [apply drive_ran|].
    split; [exact R2|]. split; [done|]. cbn zeta.
    pose proof (ran_saved_nil _ _ _ R0 eq_refl) as S0.
    pose proof (ran_saved_nil _ _ _ R1 eq_refl) as S1.
    pose proof (ran_saved_nil _ _ _ R2 eq_refl) as S2.
    autorewrite with trace.
    rewrite !captured_console_both, !captured_errors_both.
    rewrite T0, F0, S0, S1, S2. cbn [app write_all fold_left].
    unfold console_of, page_errors_of.
    rewrite <- !map_app, <- !omap_app.
    split_and!; rewrite <- ?app_assoc; cbn [app]; rewrite <- ?app_assoc;
      reflexivity.
  - left. destruct Hs as (-> & _ & (-> & _)).
    exists (observed (drive respond [sync_playwright_enter] w)), e1,
      (observed (drive respond [launch true; new_page] (world s1))),
      (result left), (observed left).
    split; [exact R0|]. split; [exact R1|]. split; [exact R2|].
    rewrite E1, T0. split; [done|]. by rewrite <- !app_assoc.
Qed.
End ScriptAnatomy.

(** ** Reading a run off its anatomy *)

Lemma map_fst_single {A B} (l : list (A * B)) (a : A) :
  map fst l = [a] -> exists b, l = [(a, b)].
Proof.
  destruct l as [|[a' b] [|? ?]]; cbn; intros H; try done.
  injection H as ->. by exists b.
Qed.

(** All the ways [cs = pre ++ c :: rest] for a list [cs] given in full. *)
Ltac split_prefix H pre :=
  lazymatch type of H with
  | [] = _ => destruct pre; discriminate H
  | _ :: _ = _ =>
      let p := fresh "p" in
      destruct pre as [|p pre]; cbn [app] in H;
      [ injection H as <- <- | injection H as <- H; split_prefix H pre ]
  end.

(** Turning every [ran] hypothesis into the projections of its segment. *)
Ltac ran_inv :=
  repeat match goal with
    | H : ran _ (Ok tt) ?t |- _ =>
        let Hr := fresh "Hr" in
        let Hs := fresh "Hsaved" in
        pose proof (ran_quiet _ _ _ H) as [? ?];
        pose proof (ran_saved _ _ _ H) as Hs;
        destruct (ran_ok_inv _ _ H) as (? & Hr & ?);
        rewrite Hr in Hs;
        unfold boundary_calls, clusters_calls, simulation_steps in Hs;
        cbn [omap list_omap saved_path] in Hs;
        clear H
    | H : ran _ (Raise _) ?t |- _ =>
        let pre := fresh "pre" in
        let Hcs := fresh "Hcs" in
        let Hr := fresh "Hr" in
        let Hs := fresh "Hsaved" in
        pose proof (ran_quiet _ _ _ H) as [? ?];
        pose proof (ran_saved _ _ _ H) as Hs;
        destruct (ran_raise_inv _ _ _ H) as (pre & ? & ? & Hcs & ? & Hr & ?);
        rewrite Hr in Hs; clear H;
        unfold boundary_calls, clusters_calls, simulation_steps in Hcs;
        split_prefix Hcs pre;
        cbn [omap list_omap saved_path] in Hs
    | H : ran _ ?res _ |- _ => destruct res as [[]|?]
    end.

Ltac use_facts :=
  repeat match goal with
    | H : calls _ = _ |- _ => rewrite ?H; clear H
    | H : returns _ = _ |- _ => rewrite ?H; clear H
    | H : throws _ = _ |- _ => rewrite ?H; clear H
    | H : stdout _ = _ |- _ => rewrite ?H; clear H
    | H : listens _ = _ |- _ => rewrite ?H; clear H
    | H : map fst (saved _) = [] |- _ =>
        apply map_eq_nil in H; rewrite ?H; clear H
    | H : map fst (saved _) = [_] |- _ =>
        let d := fresh "data" in
        apply map_fst_single in H as [d H]; rewrite ?H; clear H
    end;
  cbn [app printed_if_ok first_raise].

(** Projecting the trace in the goal segment by segment, then reading each
    segment off its [ran] hypothesis. *)
Ltac project :=
  unfold closes, scope_exits; autorewrite with trace; ran_inv; use_facts.

(** ** Releasing the browser *)

Section Release.
Context {W : Type}.
Variable respond : Call -> W -> Response * W.
Variable abspath : string -> string.

Lemma boundary_closes (w : W) files :
  let tr := trace (snd (run (verify_boundary_conditions.main respond abspath)
                          w files)) in
  closes tr =
    (if bool_decide
          (screenshot (Some verify_boundary_conditions.screenshot_path) None
           ∈ returns tr) then 1 else 0)%nat /\
  scope_exits tr =
    (if bool_decide (sync_playwright_enter ∈ returns tr) then 1 else 0)%nat.
Proof.
  cbn zeta. unfold run. rewrite boundary_shape.
  destruct (scoped_anatomy respond (boundary_calls abspath)
              ("Screenshot saved to "
               +:+ verify_boundary_conditions.screenshot_path)
              (initial w files))
    as [(e & t0 & R0 & _ & (-> & _))
       |(t0 & res & t1 & res2 & t2 & R0 & R1 & R2 & (-> & _) & _)];
    cbn [trace initial app]; project; by vm_compute.
Qed.
Lemma clusters_closes (w : W) files :
  let tr := trace (snd (run (verify_clusters.main respond abspath)
                          w files)) in
  closes tr =
    (if bool_decide
          (screenshot (Some verify_clusters.screenshot_path) None
           ∈ returns tr) then 1 else 0)%nat /\
  scope_exits tr =
    (if bool_decide (sync_playwright_enter ∈ returns tr) then 1 else 0)%nat.
Proof.
  cbn zeta. unfold run. rewrite clusters_shape.
  destruct (scoped_anatomy respond (clusters_calls abspath)
              ("Screenshot saved to " +:+ verify_clusters.screenshot_path)
              (initial w files))
    as [(e & t0 & R0 & _ & (-> & _))
       |(t0 & res & t1 & res2 & t2 & R0 & R1 & R2 & (-> & _) & _)];
    cbn [trace initial app]; project; by vm_compute.
Qed.

Lemma simulation_closes (w : W) files :
  let tr := trace (snd (run (verify_simulation.main respond abspath)
                          w files)) in
  closes tr =
    (if bool_decide (new_page ∈ returns tr) then 1 else 0)%nat /\
  scope_exits tr =
    (if bool_decide (sync_playwright_enter ∈ returns tr) then 1 else 0)%nat.
Proof.
  cbn zeta.
  destruct (simulation_anatomy respond abspath w files)
    as [(e & t0 & R0 & _ & ->)
       |[(t0 & e & t1 & res2 & t2 & R0 & R1 & R2 & _ & ->)
        |(t0 & t1 & res & ts & resc & tc & res2 & t2
          & R0 & R1 & Rs & Rc & R2 & _ & Hs)]];
    [| |cbn zeta in Hs; destruct Hs as (-> & _)];
    project; by vm_compute.
Qed.

(** [browser.close()] itself, on a standard output that takes every line:
    [verify_simulation.py] calls it exactly once in a run that acquired
    its session and never otherwise; [verify_boundary_conditions.py] and
    [verify_clusters.py] call it exactly once when every step through the
    screenshot returned and not at all when a step raised.  In all three
    the [sync_playwright] scope, once entered, is left exactly once. *)
Lemma explicit_close_calls (w : W) (files : gmap string (list byte)) :
  let sim := trace (snd (run (verify_simulation.main respond abspath)
                           w files)) in
  let bnd := trace (snd (run (verify_boundary_conditions.main respond abspath)
                           w files)) in
  let clu := trace (snd (run (verify_clusters.main respond abspath)
                           w files)) in
  closes sim = (if bool_decide (new_page ∈ returns sim) then 1 else 0)%nat /\
  closes bnd =
    (if bool_decide
          (screenshot (Some verify_boundary_conditions.screenshot_path) None
           ∈ returns bnd) then 1 else 0)%nat /\
  closes clu =
    (if bool_decide
          (screenshot (Some verify_clusters.screenshot_path) None
           ∈ returns clu) then 1 else 0)%nat /\
  (forall tr, tr ∈ [sim; bnd; clu] ->
     scope_exits tr =
       (if bool_decide (sync_playwright_enter ∈ returns tr)
        then 1 else 0)%nat).
Proof.
  cbn zeta.
  destruct (simulation_closes w files) as [Hs1 Hs2].
  destruct (boundary_closes w files) as [Hb1 Hb2].
  destruct (clusters_closes w files) as [Hc1 Hc2].
  repeat (split; [done|]).
  intros tr Htr. rewrite !elem_of_cons in Htr.
  destruct Htr as [->|[->|[->|Htr]]]; [done..|].
  by apply elem_of_nil in Htr.
Qed.

(** Corollary: no run closes the browser twice. *)
Lemma closes_at_most_once (w : W) (files : gmap string (list byte)) :
  (closes (trace (snd (run (verify_simulation.main respond abspath)
                         w files))) <= 1)%nat.
Proof.
  destruct (simulation_closes w files) as [-> _]. case_bool_decide; lia.
Qed.
End Release.

(** After a navigation failure [verify_boundary_conditions.py] does not
    call [browser.close()] itself: the session is left to the
    [sync_playwright] scope, which is left once. *)
Lemma close_left_to_the_scope :
  let tr := trace (snd (run (verify_boundary_conditions.main
                               Samples.broken_navigation Samples.abspath)
                          tt ∅)) in
  new_page ∈ returns tr /\
  throws tr = [(goto "file:///repo/index.html",
                NavigationError "file:///repo/index.html")] /\
  closes tr = 0%nat /\ scope_exits tr = 1%nat.
Proof.
  cbn zeta. split; [|split; [|split]].
  - apply (bool_decide_unpack _). by vm_compute.
  - by vm_compute.
  - by vm_compute.
  - by vm_compute.
Qed.

(** ** Failures: caught in one script, propagated in the other two *)

Lemma stdout_outcome_lines res :
  stdout (outcome_lines res) =
  match res with
  | Ok _ => ["Screenshot saved to " +:+ verify_simulation.screenshot_path]
  | Raise e => if is_Exception e then [error_line e] else []
  end.
Proof. destruct res as [[]|e]; cbn; [done|]. by destruct (is_Exception e). Qed.

#[global] Hint Rewrite stdout_outcome_lines : trace.

Lemma exit_code_raise e : exit_code (Raise e) <> 0.
Proof. by destruct e. Qed.

(** Membership in a list given in full. *)
Ltac in_cases H :=
  repeat (apply elem_of_cons in H as [H|H];
          [try (injection H as ? ?); subst|]);
  try (by apply elem_of_nil in H).

Ltac refute_in H :=
  exfalso; apply (bool_decide_pack _) in H; by vm_compute in H.

Ltac decide_by_computation := apply (bool_decide_unpack _); by vm_compute.

Section Failures.
Context {W : Type}.
Variable respond : Call -> W -> Response * W.
Variable abspath : string -> string.

Lemma no_retry (w : W) files :
  NoDup (calls (trace (snd (run (verify_simulation.main respond abspath)
                              w files)))) /\
  NoDup (calls (trace (snd (run (verify_boundary_conditions.main
                                   respond abspath) w files)))) /\
  NoDup (calls (trace (snd (run (verify_clusters.main respond abspath)
                              w files)))).
Proof.
  split; [|split].
  - destruct (simulation_anatomy respond abspath w files)
      as [(e & t0 & R0 & _ & ->)
         |[(t0 & e & t1 & res2 & t2 & R0 & R1 & R2 & _ & ->)
          |(t0 & t1 & res & ts & resc & tc & res2 & t2
            & R0 & R1 & Rs & Rc & R2 & _ & Hs)]];
      [| |cbn zeta in Hs; destruct Hs as (-> & _)];
      project; decide_by_computation.
  - unfold run. rewrite boundary_shape.
    destruct (scoped_anatomy respond (boundary_calls abspath)
                ("Screenshot saved to "
                 +:+ verify_boundary_conditions.screenshot_path)
                (initial w files))
      as [(e & t0 & R0 & _ & (-> & _))
         |(t0 & res & t1 & res2 & t2 & R0 & R1 & R2 & (-> & _) & _)];
      cbn [trace initial app]; project; decide_by_computation.
  - unfold run. rewrite clusters_shape.
    destruct (scoped_anatomy respond (clusters_calls abspath)
                ("Screenshot saved to " +:+ verify_clusters.screenshot_path)
                (initial w files))
      as [(e & t0 & R0 & _ & (-> & _))
         |(t0 & res & t1 & res2 & t2 & R0 & R1 & R2 & (-> & _) & _)];
      cbn [trace initial app]; project; decide_by_computation.
Qed.

(** A scoped sequence has no handler: either no call raises, or the
    process ends in the exception with nothing but the confirmation line,
    if that, on standard output. *)
Lemma scoped_uncaught (cs : list Call) (line : string) (w : W) files :
  let out := run (with_sync_playwright respond
                    (call_all respond cs ;; print line)) w files in
  (throws (trace (snd out)) = [] /\ fst out = Ok tt) \/
  (exists e, fst out = Raise e /\
             (stdout (trace (snd out)) = [] \/
              stdout (trace (snd out)) = [line])).
Proof.
  cbn zeta. unfold run.
  destruct (scoped_anatomy respond cs line (initial w files))
    as [(e & t0 & R0 & -> & (-> & _))
       |(t0 & res & t1 & res2 & t2 & R0 & R1 & R2 & (-> & _) & ->)];
    cbn [trace initial app].
  - right. exists e. split; [done|]. left.
    by destruct (ran_quiet _ _ _ R0) as [-> _].
  - destruct (ran_quiet _ _ _ R0) as [Q0 _].
    destruct (ran_quiet _ _ _ R1) as [Q1 _].
    destruct (ran_quiet _ _ _ R2) as [Q2 _].
    destruct (ran_ok_inv _ _ R0) as (_ & _ & T0).
    autorewrite with trace. rewrite Q0, Q1, Q2, T0. cbn [app].
    destruct res as [[]|e1], res2 as [[]|e2]; cbn [first_raise printed_if_ok].
    + left. destruct (ran_ok_inv _ _ R1) as (_ & _ & ->).
      by destruct (ran_ok_inv _ _ R2) as (_ & _ & ->).
    + right. exists e2. split; [done|]. by right.
    + right. exists e1. split; [done|]. by left.
    + right. exists e2. split; [done|]. by left.
Qed.

(** C2, as amended.  In [verify_simulation.py] a failure of class
    [Exception] raised by a step inside the [try] is caught: its message is
    printed to standard output and, when [browser.close()] and the scope
    exit return, the process ends normally with status 0.  No script
    issues a call twice.  In the other two scripts nothing is caught:
    either no call raises, or the exception ends the process with a
    non-zero status and nothing about the failure on standard output.
    Each part holds of its script on its own, whatever the others do. *)
Theorem failure_handling (w : W) (files : gmap string (list byte)) :
  let sim := run (verify_simulation.main respond abspath) w files in
  let bnd := run (verify_boundary_conditions.main respond abspath)
               w files in
  let clu := run (verify_clusters.main respond abspath) w files in
  (forall c e,
     (c, e) ∈ throws (trace (snd sim)) ->
     c ∈ simulation_steps abspath ->
     is_Exception e = true ->
     error_line e ∈ stdout (trace (snd sim)) /\
     (close ∈ returns (trace (snd sim)) ->
      sync_playwright_exit ∈ returns (trace (snd sim)) ->
      fst sim = Ok tt /\ exit_code (fst sim) = 0)) /\
  NoDup (calls (trace (snd sim))) /\
  NoDup (calls (trace (snd bnd))) /\
  NoDup (calls (trace (snd clu))) /\
  ((throws (trace (snd bnd)) = [] /\ fst bnd = Ok tt) \/
   (exists e', fst bnd = Raise e' /\ exit_code (fst bnd) <> 0 /\
      (stdout (trace (snd bnd)) = [] \/
       stdout (trace (snd bnd)) =
         ["Screenshot saved to "
          +:+ verify_boundary_conditions.screenshot_path]))) /\
  ((throws (trace (snd clu)) = [] /\ fst clu = Ok tt) \/
   (exists e', fst clu = Raise e' /\ exit_code (fst clu) <> 0 /\
      (stdout (trace (snd clu)) = [] \/
       stdout (trace (snd clu)) =
         ["Screenshot saved to " +:+ verify_clusters.screenshot_path]))).
Proof.
  cbn zeta.
  destruct (no_retry w files) as (N1 & N2 & N3).
  split; [|repeat (split; [done|]); split].
  - intros c e Hthrown Hstep Hexc. split.
    + revert Hthrown.
      destruct (simulation_anatomy respond abspath w files)
        as [(e0 & t0 & R0 & _ & ->)
           |[(t0 & e0 & t1 & res2 & t2 & R0 & R1 & R2 & _ & ->)
            |(t0 & t1 & res & ts & resc & tc & res2 & t2
              & R0 & R1 & Rs & Rc & R2 & _ & Hs)]];
        [| |cbn zeta in Hs; destruct Hs as (-> & _)];
        project; intros Hthrown; in_cases Hthrown;
        try (by refute_in Hstep);
        rewrite ?Hexc; cbn [app];
        by repeat first [apply list_elem_of_here|apply list_elem_of_further].
    + revert Hthrown.
      destruct (simulation_anatomy respond abspath w files)
        as [(e0 & t0 & R0 & _ & ->)
           |[(t0 & e0 & t1 & res2 & t2 & R0 & R1 & R2 & _ & ->)
            |(t0 & t1 & res & ts & resc & tc & res2 & t2
              & R0 & R1 & Rs & Rc & R2 & -> & Hs)]];
        [| |cbn zeta in Hs; destruct Hs as (-> & _)];
        project; intros Hthrown; in_cases Hthrown;
        try (by refute_in Hstep);
        intros Hclose Hexit;
        try (by refute_in Hclose); try (by refute_in Hexit);
        cbn [caught]; by rewrite ?Hexc.
  - unfold run. rewrite boundary_shape.
    destruct (scoped_uncaught (boundary_calls abspath)
                ("Screenshot saved to "
                 +:+ verify_boundary_conditions.screenshot_path) w files)
      as [?|(e' & He & Hout)]; [by left|right].
    exists e'. unfold run in He. rewrite He.
    split; [done|]. split; [apply exit_code_raise|done].
  - unfold run. rewrite clusters_shape.
    destruct (scoped_uncaught (clusters_calls abspath)
                ("Screenshot saved to " +:+ verify_clusters.screenshot_path)
                w files)
      as [?|(e' & He & Hout)]; [by left|right].
    exists e'. unfold run in He. rewrite He.
    split; [done|]. split; [apply exit_code_raise|done].
Qed.
End Failures.

(** The failed text assertion, caught and reported, and the failed value
    assertion of the other script, which nothing catches. *)
Lemma failure_handling_witness :
  let sim := run (verify_simulation.main Samples.frozen_display
                    Samples.abspath) tt ∅ in
  let bnd := run (verify_boundary_conditions.main Samples.stuck_dropdown
                    Samples.abspath) tt ∅ in
  (error_line (AssertionError "not 0" "0") ∈ stdout (trace (snd sim)) /\
   fst sim = Ok tt /\ exit_code (fst sim) = 0) /\
  (exists e', fst bnd = Raise e' /\ exit_code (fst bnd) <> 0 /\
              stdout (trace (snd bnd)) = []).
Proof.
  cbn zeta. split.
  - destruct (failure_handling Samples.frozen_display Samples.abspath tt ∅)
      as (Hcaught & _).
    destruct (Hcaught
                (expect_not_to_have_text (locator "#line-count") "0"
                   (Some 5000))
                (AssertionError "not 0" "0"))
      as (Hprinted & Hexit).
    + decide_by_computation.
    + decide_by_computation.
    + reflexivity.
    + split; [exact Hprinted|]. apply Hexit; decide_by_computation.
  - destruct (failure_handling Samples.stuck_dropdown Samples.abspath tt ∅)
      as (_ & _ & _ & _ & [(Hnone & _)|(e' & Hres & Hcode & Hout)] & _).
    + by vm_compute in Hnone.
    + exists e'. split; [exact Hres|]. split; [exact Hcode|].
      by vm_compute.
Defined.

(** C2, as stated, fails: in [verify_clusters.py] a navigation failure is
    not caught; nothing is printed and the process ends with status 1. *)
Lemma failure_escapes_clusters :
  let out := run (verify_clusters.main Samples.broken_navigation
                    Samples.abspath) tt ∅ in
  throws (trace (snd out)) =
    [(goto "file:///repo/index.html",
      NavigationError "file:///repo/index.html")] /\
  fst out = Raise (NavigationError "file:///repo/index.html") /\
  stdout (trace (snd out)) = [] /\
  exit_code (fst out) <> 0.
Proof. cbn zeta. repeat split; by vm_compute. Qed.

(** ** The diagnostic sinks and the teardown report *)

Lemma ran_single_head c res t :
  ran [c] res t -> exists rest, t = Called c :: rest /\ stdout rest = [].
Proof.
  intros H.
  assert (stdout t = []) as Hq by apply (ran_quiet _ _ _ H).
  inversion H as [|c' cs r res' t' Hr Hran|c' cs r e Hr]; subst.
  - inversion Hran; subst. rewrite app_nil_r in *. unfold call_obs in *.
    eexists. split; [reflexivity|]. exact Hq.
  - unfold call_obs in *. eexists. split; [reflexivity|]. exact Hq.
Qed.

Section Diagnostics.
Context {W : Type}.
Variable respond : Call -> W -> Response * W.
Variable abspath : string -> string.

(** An acquired session is the third case of the anatomy. *)
Lemma acquired_anatomy (w : W) files :
  let out := run (verify_simulation.main respond abspath) w files in
  new_page ∈ returns (trace (snd out)) ->
  exists t0 t1 res ts resc tc res2 t2,
    ran [sync_playwright_enter] (Ok tt) t0 /\
    ran [launch true; new_page] (Ok tt) t1 /\
    ran (simulation_steps abspath) res ts /\
    ran [close] resc tc /\
    ran [sync_playwright_exit] res2 t2 /\
    fst out = first_raise res2 (first_raise resc (caught res)) /\
    let cm := map format_console (console_of (emitted ts)) in
    let pe := map str_exn (page_errors_of (emitted ts)) in
    let tail := ts ++ outcome_lines res
                ++ map Printed (report_lines cm pe) ++ tc ++ t2 in
    trace (snd out) =
      t0 ++ t1 ++ [Listening console; Listening pageerror] ++ tail /\
    console_messages (snd out) =
      map format_console (console_of (emitted tail)) /\
    page_errors (snd out) = map str_exn (page_errors_of (emitted tail)) /\
    fs (snd out) = write_all (saved ts) files.
Proof.
  cbn zeta.
  destruct (simulation_anatomy respond abspath w files)
    as [(e & t0 & R0 & _ & ->)
       |[(t0 & e & t1 & res2 & t2 & R0 & R1 & R2 & _ & ->)
        |(t0 & t1 & res & ts & resc & tc & res2 & t2 & H)]].
  - project. intros Hin. refute_in Hin.
  - project; intros Hin; refute_in Hin.
  - intros _. by exists t0, t1, res, ts, resc, tc, res2, t2.
Qed.

(** C3.  In every run of [verify_simulation.py] that acquires its session
    the two sinks are registered after [new_page] and before any other
    call, navigation included; from then on every console message the page
    emits is in [console_messages] as ["[type] text"] and every page error
    is in [page_errors] as its string, in the order of emission, none lost
    and none added. *)
Theorem sinks_capture_in_order (w : W) (files : gmap string (list byte)) :
  let out := run (verify_simulation.main respond abspath) w files in
  new_page ∈ returns (trace (snd out)) ->
  exists before since,
    trace (snd out) =
      before ++ [Listening console; Listening pageerror] ++ since /\
    calls before = [sync_playwright_enter; launch true; new_page] /\
    listens since = [] /\
    console_messages (snd out) =
      map (fun m => "[" +:+ msg_type m +:+ "] " +:+ msg_text m)
        (console_of (emitted since)) /\
    page_errors (snd out) = map str_exn (page_errors_of (emitted since)).
Proof.
  cbn zeta. intros Hacq.
  destruct (acquired_anatomy w files Hacq)
    as (t0 & t1 & res & ts & resc & tc & res2 & t2
        & R0 & R1 & Rs & Rc & R2 & _ & Hs).
  cbn zeta in Hs. destruct Hs as (Htr & Hcm & Hpe & _).
  eexists (t0 ++ t1), _. split; [by rewrite Htr, <- app_assoc|].
  split; [|split; [|by split]].
  - autorewrite with trace.
    destruct (ran_ok_inv _ _ R0) as (-> & _).
    by destruct (ran_ok_inv _ _ R1) as (-> & _).
  - autorewrite with trace.
    destruct (ran_quiet _ _ _ Rs) as [_ ->].
    destruct (ran_quiet _ _ _ Rc) as [_ ->].
    by destruct (ran_quiet _ _ _ R2) as [_ ->].
Qed.

(** C4.  In every run of [verify_simulation.py] that acquires its
    session, whether the steps succeeded or raised, the teardown prints the
    two labelled sections of the report, the console log and then the
    error log as accumulated since the sinks were registered, each with
    its "none captured" line when empty, and only then issues
    [browser.close()]; nothing is printed afterwards. *)
Theorem teardown_reports_then_closes (w : W)
    (files : gmap string (list byte)) :
  let out := run (verify_simulation.main respond abspath) w files in
  new_page ∈ returns (trace (snd out)) ->
  exists before since rest,
    trace (snd out) =
      before ++ [Listening console; Listening pageerror] ++ since
      ++ map Printed
           (report_lines
              (map format_console (console_of (emitted since)))
              (map str_exn (page_errors_of (emitted since))))
      ++ Called close :: rest /\
    (close ∉ calls (before ++ since)) /\
    stdout rest = [].
Proof.
  cbn zeta. intros Hacq.
  destruct (acquired_anatomy w files Hacq)
    as (t0 & t1 & res & ts & resc & tc & res2 & t2
        & R0 & R1 & Rs & Rc & R2 & _ & Hs).
  cbn zeta in Hs. destruct Hs as (Htr & _).
  destruct (ran_single_head _ _ _ Rc) as (rest & -> & Hrest).
  exists (t0 ++ t1), (ts ++ outcome_lines res), (rest ++ t2).
  split; [|split].
  - rewrite Htr. autorewrite with trace. rewrite app_nil_r.
    by rewrite <- !app_assoc.
  - clear Htr Hacq. project; intros Hin; refute_in Hin.
  - autorewrite with trace. rewrite Hrest.
    by destruct (ran_quiet _ _ _ R2) as [-> _].
Qed.
End Diagnostics.

Lemma sinks_capture_in_order_witness :
  let out := run (verify_simulation.main Samples.healthy Samples.abspath)
               tt ∅ in
  console_messages (snd out) = ["[log] ready"; "[warning] slow"] /\
  page_errors (snd out) = ["ReferenceError: x is not defined"] /\
  exists before since,
    trace (snd out) =
      before ++ [Listening console; Listening pageerror] ++ since /\
    calls before = [sync_playwright_enter; launch true; new_page] /\
    listens since = [] /\
    console_messages (snd out) =
      map (fun m => "[" +:+ msg_type m +:+ "] " +:+ msg_text m)
        (console_of (emitted since)) /\
    page_errors (snd out) = map str_exn (page_errors_of (emitted since)).
Proof.
  cbn zeta. split; [by vm_compute|]. split; [by vm_compute|].
  apply (sinks_capture_in_order Samples.healthy Samples.abspath tt ∅).
  decide_by_computation.
Defined.

Lemma teardown_reports_then_closes_witness :
  let out := run (verify_simulation.main Samples.broken_navigation
                    Samples.abspath) tt ∅ in
  stdout (trace (snd out)) =
    [error_line (NavigationError "file:///repo/index.html");
     nl +:+ "--- Browser Console Logs ---";
     "No console messages were captured.";
     nl +:+ "--- Browser Page Errors ---";
     "No page errors were captured."] /\
  exists before since rest,
    trace (snd out) =
      before ++ [Listening console; Listening pageerror] ++ since
      ++ map Printed
           (report_lines
              (map format_console (console_of (emitted since)))
              (map str_exn (page_errors_of (emitted since))))
      ++ Called close :: rest /\
    (close ∉ calls (before ++ since)) /\
    stdout rest = [].
Proof.
  cbn zeta. split; [by vm_compute|].
  apply (teardown_reports_then_closes Samples.broken_navigation
           Samples.abspath tt ∅).
  decide_by_computation.
Defined.

(** ** The screenshot *)

Section Screenshot.
Context {W : Type}.
Variable respond : Call -> W -> Response * W.
Variable abspath : string -> string.

(** A run whose screenshot call returned wrote exactly one file, at the
    script's fixed path, over whatever was there, and asked for no
    full-page screenshot. *)
Lemma capture_anatomy (s : Script) (w : W) files :
  let out := run (main_of s respond abspath) w files in
  screenshot (Some (screenshot_path_of s)) None
    ∈ returns (trace (snd out)) ->
  (exists data,
     saved (trace (snd out)) = [(screenshot_path_of s, data)] /\
     fs (snd out) = <[screenshot_path_of s := data]> files) /\
  Forall (fun c => requests_full_page c = false) (calls (trace (snd out))).
Proof.
  cbn zeta. destruct s; cbn [main_of screenshot_path_of].
  - destruct (simulation_anatomy respond abspath w files)
      as [(e & t0 & R0 & _ & ->)
         |[(t0 & e & t1 & res2 & t2 & R0 & R1 & R2 & _ & ->)
          |(t0 & t1 & res & ts & resc & tc & res2 & t2
            & R0 & R1 & Rs & Rc & R2 & _ & Hs)]];
      [| |cbn zeta in Hs; destruct Hs as (-> & _ & _ & ->)];
      project; intros Hin; try (by refute_in Hin);
      (split; [by eexists|decide_by_computation]).
  - unfold run. rewrite boundary_shape.
    destruct (scoped_anatomy respond (boundary_calls abspath)
                ("Screenshot saved to "
                 +:+ verify_boundary_conditions.screenshot_path)
                (initial w files))
      as [(e & t0 & R0 & _ & (-> & _ & _ & _ & ->))
         |(t0 & res & t1 & res2 & t2 & R0 & R1 & R2
           & (-> & _ & _ & _ & ->) & _)];
      cbn [trace fs initial app];
      project; intros Hin; try (by refute_in Hin);
      (split; [by eexists|decide_by_computation]).
  - unfold run. rewrite clusters_shape.
    destruct (scoped_anatomy respond (clusters_calls abspath)
                ("Screenshot saved to " +:+ verify_clusters.screenshot_path)
                (initial w files))
      as [(e & t0 & R0 & _ & (-> & _ & _ & _ & ->))
         |(t0 & res & t1 & res2 & t2 & R0 & R1 & R2
           & (-> & _ & _ & _ & ->) & _)];
      cbn [trace fs initial app];
      project; intros Hin; try (by refute_in Hin);
      (split; [by eexists|decide_by_computation]).
Qed.
End Screenshot.

Section ScreenshotClaims.
Context {W : Type}.
Variable respond : Call -> W -> Response * W.
Variable abspath : string -> string.


End ScreenshotClaims.





(** ** The browser as the specification describes it *)

Section BrowserFacts.
Import Browser.

Lemma poll_here (cond : Z -> bool) (t : Z) (fuel : nat) :
  cond t = true -> poll cond t fuel = Some t.
Proof. intros H. destruct fuel; cbn; by rewrite H. Qed.

(** A bounded wait succeeds as soon as the condition holds: if it holds [d]
    milliseconds into the wait, with [d] within the timeout, the wait ends
    by then, at a time at which the condition holds. *)
Lemma poll_finds (cond : Z -> bool) (fuel : nat) (t : Z) (d : nat) :
  (d <= fuel)%nat -> cond (t + Z.of_nat d) = true ->
  exists t', poll cond t fuel = Some t' /\
             t <= t' <= t + Z.of_nat d /\ cond t' = true.
Proof.
  revert t d. induction fuel as [|fuel IH]; intros t d Hd Hc.
  - assert (d = 0%nat) as -> by lia. rewrite Z.add_0_r in Hc.
    exists t. rewrite poll_here by done. split; [done|]. split; [lia|done].
  - destruct (cond t) eqn:Ht.
    + exists t. rewrite poll_here by done. split; [done|]. split; [lia|done].
    + destruct d as [|d]; [rewrite Z.add_0_r in Hc; congruence|].
      destruct (IH (t + 1) d) as (t' & Hp & Hb & Ht'); [lia| |].
      * rewrite <- Hc. f_equal. lia.
      * exists t'. cbn [poll]. rewrite Ht. split; [done|]. split; [lia|done].
Qed.

Lemma bounded_wait_here (cond : Z -> bool) (t timeout : Z) :
  cond t = true -> bounded_wait cond t timeout = Some t.
Proof. apply poll_here. Qed.

Lemma bounded_wait_finds (cond : Z -> bool) (t timeout d : Z) :
  0 <= d <= timeout -> cond (t + d) = true ->
  exists t', bounded_wait cond t timeout = Some t' /\
             t <= t' <= t + d /\ cond t' = true.
Proof.
  intros Hd Hc. unfold bounded_wait.
  destruct (poll_finds cond (Z.to_nat timeout) t (Z.to_nat d))
    as (t' & Hp & Hb & Ht'); [lia|by rewrite Z2Nat.id by lia|].
  exists t'. rewrite Z2Nat.id in Hb by lia. done.
Qed.

(** A bounded wait times out exactly when the condition holds at no
    millisecond of the wait. *)
Lemma poll_none (cond : Z -> bool) (fuel : nat) (t : Z) :
  (forall d, (d <= fuel)%nat -> cond (t + Z.of_nat d) = false) ->
  poll cond t fuel = None.
Proof.
  revert t. induction fuel as [|fuel IH]; intros t H.
  - cbn. specialize (H 0%nat). rewrite Z.add_0_r in H. by rewrite H.
  - cbn [poll]. pose proof (H 0%nat) as H0. rewrite Z.add_0_r in H0.
    rewrite H0 by lia. apply IH. intros d Hd.
    specialize (H (S d)). rewrite <- H by lia. f_equal. lia.
Qed.

Lemma bounded_wait_times_out (cond : Z -> bool) (t timeout : Z) :
  0 <= timeout ->
  (forall d, 0 <= d <= timeout -> cond (t + d) = false) ->
  bounded_wait cond t timeout = None.
Proof.
  intros Ht H. apply poll_none. intros d Hd. apply H. lia.
Qed.

(** An assertion whose post-condition never holds within its timeout raises
    [AssertionError] with the expected and the observed value. *)
Lemma assert_within_times_out (p : Setup) (s : PageState) (l : Locator)
    (holds : Z -> bool) (timeout : Z) (expected : string)
    (observed : Z -> string) :
  0 <= timeout ->
  (forall d, 0 <= d <= timeout -> holds (now s + d) = false) ->
  resp_raises (fst (assert_within p s l holds timeout expected observed)) =
    Some (AssertionError expected (observed (now s + timeout))).
Proof.
  intros Ht H. unfold assert_within.
  rewrite bounded_wait_times_out; [done|done|].
  intros d Hd. rewrite H by done. apply andb_false_r.
Qed.

Lemma is_visible_from (p : Setup) (s : PageState) (l : Locator) (d t : Z) :
  loaded s = true -> visible_from p l = Some d -> d <= t ->
  is_visible p s l t = true.
Proof.
  intros Hl Hv Hd. unfold is_visible. rewrite Hl, Hv. cbn.
  by apply bool_decide_eq_true.
Qed.

(** Locating an element that becomes visible within the default timeout of
    the document's loading succeeds, no later than it becomes visible. *)
Lemma locate_resolves (p : Setup) (s : PageState) (l : Locator) (d : Z) :
  loaded s = true -> visible_from p l = Some d -> d <= default_timeout ->
  0 <= now s ->
  exists t, locate p s l = inr (at_time t s) /\
            now s <= t <= Z.max (now s) d.
Proof.
  intros Hl Hv Hd Hnow. unfold locate.
  destruct (bounded_wait_finds (is_visible p s l) (now s) default_timeout
              (Z.max (now s) d - now s))
    as (t & -> & Hb & _).
  - unfold default_timeout in *. lia.
  - eapply is_visible_from; [done..|lia].
  - exists t. split; [done|]. lia.
Qed.
End BrowserFacts.

(** ** The scenarios on the browser of the specification *)

Section Completion.
Context {W : Type}.
Variable respond : Call -> W -> Response * W.

(** A scoped script that ends normally issued every call, each returned,
    and the confirmation line is all it printed. *)
Lemma scoped_completes (cs : list Call) (line : string) (w : W) files :
  let out := run (with_sync_playwright respond
                    (call_all respond cs ;; print line)) w files in
  fst out = Ok tt ->
  throws (trace (snd out)) = [] /\
  calls (trace (snd out)) =
    sync_playwright_enter :: cs ++ [sync_playwright_exit] /\
  stdout (trace (snd out)) = [line].
Proof.
  cbn zeta. unfold run.
  destruct (scoped_anatomy respond cs line (initial w files))
    as [(e & t0 & R0 & -> & _)
       |(t0 & res & t1 & res2 & t2 & R0 & R1 & R2 & (-> & _) & ->)];
    [done|].
  cbn [trace initial app]. intros Hres.
  destruct res2 as [[]|?]; [|done]. cbn in Hres. subst res.
  project. done.
Qed.

(** [verify_clusters.py] never calls [expect]. *)
Lemma clusters_never_expects (abspath : string -> string) (w : W) files :
  Forall (fun c => is_expect c = false)
    (calls (trace (snd (run (verify_clusters.main respond abspath)
                          w files)))).
Proof.
  unfold run. rewrite clusters_shape.
  destruct (scoped_anatomy respond (clusters_calls abspath)
              ("Screenshot saved to " +:+ verify_clusters.screenshot_path)
              (initial w files))
    as [(e & t0 & R0 & _ & (-> & _))
       |(t0 & res & t1 & res2 & t2 & R0 & R1 & R2 & (-> & _) & _)];
    cbn [trace initial app]; project; decide_by_computation.
Qed.
End Completion.

Section OnBrowser.
Import Browser.
Variable abspath : string -> string.
Variable p : Setup.

Lemma ends_cons (c : Call) (cs : list Call) (s : PageState) :
  ends (drive (respond p) (c :: cs) s) =
  let '(r, s1) := respond p c s in
  match resp_raises r with
  | Some e => (Raise e, s1)
  | None => ends (drive (respond p) cs s1)
  end.
Proof.
  unfold ends. cbn [drive]. destruct (respond p c s) as [r s1].
  by destruct (resp_raises r).
Qed.

Lemma at_time_now (s : PageState) : at_time (now s) s = s.
Proof. by destruct s. Qed.

Lemma ready_press (l : Locator) (s : PageState) : ready s -> ready (press l s).
Proof.
  unfold press. intros H.
  repeat case_decide; try done; by destruct (started s), (paused s).
Qed.

Lemma ready_at_time (t : Z) (s : PageState) :
  ready s -> now s <= t -> ready (at_time t s).
Proof. intros [Hl Hn] Ht. split; [done|]. cbn. lia. Qed.

Lemma goto_returns (s : PageState) :
  document_url p = "file://" +:+ abspath "index.html" ->
  respond p (goto ("file://" +:+ abspath "index.html")) s =
  ({| resp_events := on_load p; resp_raises := None; resp_image := [] |},
   {| now := 0; loaded := true; started := None; paused := None;
      selected := initial_value p |}).
Proof. intros Hu. cbn [respond]. by rewrite decide_True. Qed.

Lemma click_returns (l : Locator) (s : PageState) :
  ready s -> resolves p l ->
  exists t, now s <= t /\
            respond p (click l) s = (quiet, press l (at_time t s)).
Proof.
  intros [Hl Hn] (d & Hv & Hd).
  destruct (locate_resolves p s l d Hl Hv Hd Hn) as (t & E & Ht).
  exists t. split; [lia|]. cbn [respond]. by rewrite E.
Qed.

(** An element that is already visible is located at once. *)
Lemma locate_now (l : Locator) (s : PageState) (d : Z) :
  loaded s = true -> visible_from p l = Some d -> d <= now s ->
  locate p s l = inr s.
Proof.
  intros Hl Hv Hd. unfold locate.
  rewrite bounded_wait_here by (by eapply is_visible_from).
  by rewrite at_time_now.
Qed.

(** [verify_clusters.py] on any page whose two buttons resolve. *)
Lemma clusters_drive (s : PageState) :
  browser_installed p = true ->
  document_url p = "file://" +:+ abspath "index.html" ->
  resolves p (locator "#start-button") ->
  resolves p (locator "#pause-button") ->
  output_writable p = true ->
  result (drive (respond p) (clusters_calls abspath) s) = Ok tt.
Proof.
  intros Hb Hu H1 H2 Hw.
  change (fst (ends (drive (respond p) (clusters_calls abspath) s)) = Ok tt).
  unfold clusters_calls.
  rewrite ends_cons. cbn [respond]. rewrite Hb. cbn [quiet resp_raises].
  rewrite ends_cons. cbn [respond quiet resp_raises].
  rewrite ends_cons, goto_returns by done. cbn [resp_raises].
  rewrite ends_cons.
  edestruct (click_returns (locator "#start-button")) as (t1 & Ht1 & ->);
    [|exact H1|].
  { split; [done|]. cbn. lia. }
  cbn [quiet resp_raises].
  rewrite ends_cons. cbn [respond quiet resp_raises].
  rewrite ends_cons.
  edestruct (click_returns (locator "#pause-button")) as (t2 & Ht2 & ->);
    [|exact H2|].
  { apply ready_at_time; [|lia].
    apply ready_press, ready_at_time; [|done]. split; [done|]. cbn. lia. }
  cbn [quiet resp_raises].
  rewrite ends_cons. cbn [respond]. rewrite Hw. cbn [resp_raises].
  rewrite ends_cons. reflexivity.
Qed.

Lemma press_start (s : PageState) :
  started s = None ->
  press (locator "#start-button") s =
  {| now := now s; loaded := loaded s; started := Some (now s);
     paused := paused s; selected := selected s |}.
Proof. intros H. unfold press. rewrite decide_True by done. by rewrite H. Qed.

Lemma press_pause (s : PageState) (t0 : Z) :
  started s = Some t0 -> paused s = None ->
  press (locator "#pause-button") s =
  {| now := now s; loaded := loaded s; started := started s;
     paused := Some (now s); selected := selected s |}.
Proof.
  intros H1 H2. unfold press.
  rewrite decide_False by done. rewrite decide_True by done.
  by rewrite H1, H2.
Qed.

(** The same on a page that keeps to the contract, where nothing has to be
    waited for: the run takes the 3000 ms it asks for. *)
Lemma clusters_drive_contract (s : PageState) :
  contract abspath p ->
  ends (drive (respond p) (clusters_calls abspath) s) =
  (Ok tt,
   {| now := 3000; loaded := true; started := Some 0; paused := Some 3000;
      selected := initial_value p |}).
Proof.
  intros C. unfold clusters_calls.
  rewrite ends_cons. cbn [respond]. rewrite (has_browser _ _ C).
  cbn [quiet resp_raises].
  rewrite ends_cons. cbn [respond quiet resp_raises].
  rewrite ends_cons, goto_returns by apply C.
  cbn [resp_raises].
  rewrite ends_cons. cbn [respond].
  rewrite (locate_now _ _ 0);
    [|done|apply (exposes _ _ C); decide_by_computation|done].
  rewrite press_start by done.
  cbn [quiet resp_raises now loaded started paused selected].
  rewrite ends_cons.
  cbn [respond quiet resp_raises at_time now loaded started paused selected].
  rewrite ends_cons. cbn [respond].
  rewrite (locate_now _ _ 0);
    [|done|apply (exposes _ _ C); decide_by_computation|done].
  rewrite (press_pause _ 0) by done.
  cbn [quiet resp_raises now loaded started paused selected].
  rewrite ends_cons. cbn [respond]. rewrite (writes _ _ C).
  cbn [resp_raises].
  rewrite ends_cons. cbn [respond quiet resp_raises]. reflexivity.
Qed.

(** [verify_simulation.py], lines 24-39, on a page that keeps to the
    contract: every step returns, the text assertion within 5000 ms of the
    click, at a time at which the display no longer shows ["0"]. *)
Lemma simulation_drive_contract (s : PageState) :
  contract abspath p ->
  exists t,
    0 <= t <= 5000 /\ text_after_start p t <> "0" /\
    ends (drive (respond p) (simulation_steps abspath) s) =
    (Ok tt,
     {| now := t; loaded := true; started := Some 0; paused := None;
        selected := initial_value p |}).
Proof.
  intros C. unfold simulation_steps.
  rewrite ends_cons, goto_returns by apply C.
  cbn [resp_raises].
  rewrite ends_cons. cbn [respond]. unfold assert_within at 1.
  rewrite bounded_wait_here.
  2: { rewrite (is_visible_from p _ _ 0); try done.
       apply (exposes _ _ C). decide_by_computation. }
  rewrite at_time_now. cbn [quiet resp_raises].
  rewrite ends_cons. cbn [respond].
  rewrite (locate_now _ _ 0);
    [|done|apply (exposes _ _ C); decide_by_computation|done].
  rewrite press_start by done.
  cbn [quiet resp_raises now loaded started paused selected].
  rewrite ends_cons. cbn [respond]. unfold assert_within at 1.
  destruct (starts_counting _ _ C) as (d & Hd & Htext).
  match goal with
  | |- context [bounded_wait ?cond ?t ?timeout] =>
      destruct (bounded_wait_finds cond t timeout d)
        as (t' & -> & Hb & Hcond)
  end.
  { done. }
  { apply andb_true_intro. split.
    - apply (is_visible_from p _ _ 0); [done| |cbn; lia].
      apply (exposes _ _ C). decide_by_computation.
    - apply bool_decide_eq_true. unfold element_text.
      rewrite decide_True by done. cbn. intros E. apply Htext.
      rewrite <- E. f_equal. lia. }
  cbn [quiet resp_raises].
  rewrite ends_cons. cbn [respond]. rewrite (writes _ _ C).
  cbn [resp_raises]. unfold ends. cbn [drive result final at_time].
  apply andb_prop in Hcond as [_ Hcond].
  apply bool_decide_eq_true in Hcond. unfold element_text in Hcond.
  rewrite decide_True in Hcond by done.
  cbn in Hb, Hcond. exists t'. split; [lia|]. split; [|done].
  by replace (t' - 0) with t' in Hcond by lia.
Qed.
End OnBrowser.

Lemma ends_inv {W : Type} (d : Replay W) (r : Res unit) (w : W) :
  ends d = (r, w) -> result d = r /\ final d = w.
Proof. unfold ends. by intros [= -> ->]. Qed.

Section Scenarios.
Import Browser.
Variable abspath : string -> string.
Variable p : Setup.

Lemma quiet_call_ends (c : Call) (s : PageState) :
  respond p c s = (quiet, s) ->
  result (drive (respond p) [c] s) = Ok tt /\
  final (drive (respond p) [c] s) = s.
Proof. intros E. apply ends_inv. rewrite ends_cons, E. reflexivity. Qed.

Lemma acquisition_ends (s : PageState) :
  browser_installed p = true ->
  result (drive (respond p) [launch true; new_page] s) = Ok tt /\
  final (drive (respond p) [launch true; new_page] s) = s.
Proof.
  intros Hb. apply ends_inv. rewrite ends_cons. cbn [respond]. rewrite Hb.
  cbn [quiet resp_raises]. rewrite ends_cons. reflexivity.
Qed.

(** [verify_clusters.py] as a process on the browser. *)
Lemma clusters_on_browser (files : gmap string (list byte))
    (r : Res unit) (s : PageState) :
  ends (drive (respond p) (clusters_calls abspath) (fresh p)) = (r, s) ->
  let out := run (verify_clusters.main (respond p) abspath) (fresh p) files
  in
  fst out = r /\ world (snd out) = s.
Proof.
  intros E. cbn zeta. unfold run. rewrite clusters_shape.
  destruct (scoped_replay_eq (respond p) (clusters_calls abspath)
              ("Screenshot saved to " +:+ verify_clusters.screenshot_path)
              (initial (fresh p) files)) as (H1 & H2 & _).
  rewrite H1, H2. cbn [world initial]. unfold scoped_replay.
  destruct (quiet_call_ends sync_playwright_enter (fresh p) eq_refl)
    as [-> ->].
  destruct (ends_inv _ _ _ E) as [-> ->].
  destruct (quiet_call_ends sync_playwright_exit s eq_refl) as [-> ->].
  cbn [result final first_raise]. done.
Qed.

(** [verify_simulation.py] as a process on a browser that keeps to the
    contract. *)
Lemma simulation_on_browser (files : gmap string (list byte)) :
  contract abspath p ->
  let out := run (verify_simulation.main (respond p) abspath) (fresh p) files
  in
  exists t,
    0 <= t <= 5000 /\ text_after_start p t <> "0" /\
    fst out = Ok tt /\
    world (snd out) =
      {| now := t; loaded := true; started := Some 0; paused := None;
         selected := initial_value p |} /\
    throws (trace (snd out)) = [] /\
    returns (trace (snd out)) =
      [sync_playwright_enter; launch true; new_page]
      ++ simulation_steps abspath ++ [close; sync_playwright_exit].
Proof.
  intros C. cbn zeta.
  destruct (simulation_replay_eq (respond p) abspath (fresh p) files)
    as (H1 & H2 & H3).
  rewrite H1, H2, H3. clear H1 H2 H3. unfold simulation_replay.
  pose proof (drive_ran (respond p) [sync_playwright_enter] (fresh p)) as R0.
  destruct (quiet_call_ends sync_playwright_enter (fresh p) eq_refl)
    as [E0 F0].
  rewrite E0, F0 in *.
  pose proof (drive_ran (respond p) [launch true; new_page] (fresh p)) as R1.
  destruct (acquisition_ends (fresh p) (has_browser _ _ C)) as [E1 F1].
  rewrite E1, F1 in *.
  destruct (simulation_drive_contract abspath p (fresh p) C)
    as (t & Ht & Htext & E).
  pose proof (drive_ran (respond p) (simulation_steps abspath) (fresh p))
    as Rs.
  destruct (ends_inv _ _ _ E) as [Es Fs]. rewrite Es, Fs in *.
  match goal with
  | |- context [drive (respond p) [close] ?s] =>
      pose proof (drive_ran (respond p) [close] s) as Rc;
      destruct (quiet_call_ends close s eq_refl) as [Ec Fc];
      rewrite Ec, Fc in *;
      pose proof (drive_ran (respond p) [sync_playwright_exit] s) as R2;
      destruct (quiet_call_ends sync_playwright_exit s eq_refl) as [E2 F2];
      rewrite E2, F2 in *
  end.
  cbn [result observed final first_raise caught].
  exists t. repeat (split; [done|]).
  split; project; reflexivity.
Qed.
End Scenarios.

(** ** The three scenarios and the assertion that fails *)

Section ScenarioClaims.
Import Browser.
Variable abspath : string -> string.
Variable p : Setup.

(** C8.  On the browser and target page of the specification, for every
    page that keeps to the contract (the status display starts at ["0"] and
    a started simulation changes it within 5000 ms): in
    [verify_simulation.py] the click on the start button returns, the
    assertion that the display no longer reads ["0"] returns within
    5000 ms of the click, the display then reads something other than
    ["0"], and the run ends normally. *)
Theorem start_changes_the_display (files : gmap string (list byte)) :
  contract abspath p ->
  let out := run (verify_simulation.main (respond p) abspath) (fresh p) files
  in
  let s := world (snd out) in
  display_text p (fresh p) 0 = "0" /\
  click (locator "#start-button") ∈ returns (trace (snd out)) /\
  expect_not_to_have_text (locator "#line-count") "0" (Some 5000)
    ∈ returns (trace (snd out)) /\
  started s = Some 0 /\ 0 <= now s <= 5000 /\
  display_text p s (now s) <> "0" /\
  fst out = Ok tt.
Proof.
  intros C. cbn zeta.
  destruct (simulation_on_browser abspath p files C)
    as (t & Ht & Htext & -> & -> & _ & ->).
  split; [exact (starts_at_zero _ _ C)|].
  split; [decide_by_computation|]. split; [decide_by_computation|].
  split; [done|]. split; [done|]. split; [|done].
  unfold display_text. cbn. by replace (t - 0) with t by lia.
Qed.

(** C9, as amended.  On the browser and target page of the specification,
    for every page that keeps to the contract, [verify_clusters.py] clicks
    start, waits 3000 ms, clicks pause and takes the screenshot without any
    call raising; the scenario uses two locators, [#start-button] and
    [#pause-button], both of which resolve within their default timeout
    (here at once: the run takes the 3000 ms it waits and no more). *)
Theorem clusters_scenario (files : gmap string (list byte)) :
  contract abspath p ->
  let out := run (verify_clusters.main (respond p) abspath) (fresh p) files
  in
  fst out = Ok tt /\
  throws (trace (snd out)) = [] /\
  calls (trace (snd out)) =
    sync_playwright_enter :: clusters_calls abspath
    ++ [sync_playwright_exit] /\
  locators_of (calls (trace (snd out))) =
    [locator "#start-button"; locator "#pause-button"] /\
  (forall l, l ∈ locators_of (calls (trace (snd out))) -> resolves p l) /\
  now (world (snd out)) = 3000.
Proof.
  intros C. cbn zeta.
  destruct (clusters_on_browser abspath p files _ _
              (clusters_drive_contract abspath p (fresh p) C)) as [Hres Hw].
  pose proof Hres as Hdone. unfold run in Hdone.
  rewrite clusters_shape in Hdone.
  apply scoped_completes in Hdone as (Hthrows & Hcalls & _).
  unfold run in *. rewrite clusters_shape in *.
  rewrite Hres, Hw, Hthrows, Hcalls.
  repeat (split; [done|]). split; [|done].
  intros l Hl. exists 0. split; [|done].
  apply (exposes _ _ C). cbn in Hl.
  in_cases Hl; decide_by_computation.
Qed.

(** C10.  [verify_clusters.py] checks no post-condition.  On the browser
    of the specification, for every page that loads and on which
    [#start-button] and [#pause-button] resolve and the screenshot can be
    written, whatever else the page holds, the run ends normally having
    issued its fixed calls; the same page with any other status display
    gives the same result, the same calls and the same output; and against
    any browser whatever the script never calls [expect]. *)
Theorem clusters_checks_no_postcondition (files : gmap string (list byte)) :
  browser_installed p = true ->
  document_url p = "file://" +:+ abspath "index.html" ->
  resolves p (locator "#start-button") ->
  resolves p (locator "#pause-button") ->
  output_writable p = true ->
  let out := run (verify_clusters.main (respond p) abspath) (fresh p) files
  in
  fst out = Ok tt /\ exit_code (fst out) = 0 /\
  calls (trace (snd out)) =
    sync_playwright_enter :: clusters_calls abspath
    ++ [sync_playwright_exit] /\
  stdout (trace (snd out)) =
    ["Screenshot saved to " +:+ verify_clusters.screenshot_path] /\
  (forall initial after_start,
     let q := with_display p initial after_start in
     let out' := run (verify_clusters.main (respond q) abspath) (fresh q)
                   files in
     fst out' = fst out /\
     calls (trace (snd out')) = calls (trace (snd out)) /\
     stdout (trace (snd out')) = stdout (trace (snd out))) /\
  (forall (W : Type) (respond' : Call -> W -> Response * W) (w : W),
     Forall (fun c => is_expect c = false)
       (calls (trace (snd (run (verify_clusters.main respond' abspath)
                             w files))))).
Proof.
  intros Hb Hu H1 H2 Hw. cbn zeta.
  assert (forall q,
            browser_installed q = true ->
            document_url q = "file://" +:+ abspath "index.html" ->
            resolves q (locator "#start-button") ->
            resolves q (locator "#pause-button") ->
            output_writable q = true ->
            let out := run (verify_clusters.main (respond q) abspath)
                         (fresh q) files in
            fst out = Ok tt /\
            calls (trace (snd out)) =
              sync_playwright_enter :: clusters_calls abspath
              ++ [sync_playwright_exit] /\
            stdout (trace (snd out)) =
              ["Screenshot saved to " +:+ verify_clusters.screenshot_path])
    as Hany.
  { intros q Hb' Hu' H1' H2' Hw'. cbn zeta.
    pose proof (clusters_drive abspath q (fresh q) Hb' Hu' H1' H2' Hw')
      as Hres.
    destruct (clusters_on_browser abspath q files _ _ eq_refl) as [Hout _].
    cbn [fst] in Hout. rewrite Hres in Hout.
    pose proof Hout as Hdone. unfold run in Hdone.
    rewrite clusters_shape in Hdone.
    apply scoped_completes in Hdone as (_ & Hcalls & Hstdout).
    unfold run in *. rewrite clusters_shape in *. done. }
  destruct (Hany p Hb Hu H1 H2 Hw) as (Hres & Hcalls & Hstdout).
  rewrite Hres, Hcalls, Hstdout.
  do 4 (split; [done|]). split.
  - intros initial after_start.
    by destruct (Hany (with_display p initial after_start) Hb Hu H1 H2 Hw)
      as (-> & -> & ->).
  - intros W respond' w. apply clusters_never_expects.
Qed.
End ScenarioClaims.

Section AssertionClaim.
Context {W : Type}.
Variable respond : Call -> W -> Response * W.
Variable abspath : string -> string.

End AssertionClaim.


(** The failed text assertion of [verify_simulation.py] is caught: the
    process itself ends normally, with status 0. *)
Lemma failed_assertion_is_caught :
  let sim := run (verify_simulation.main Samples.frozen_display
                    Samples.abspath) tt ∅ in
  throws (trace (snd sim)) =
    [(expect_not_to_have_text (locator "#line-count") "0" (Some 5000),
      AssertionError "not 0" "0")] /\
  fst sim <> Raise (AssertionError "not 0" "0") /\
  fst sim = Ok tt /\ exit_code (fst sim) = 0.
Proof. cbn zeta. repeat split; by vm_compute. Qed.

Lemma start_changes_the_display_witness :
  let out := run (verify_simulation.main
                    (Browser.respond Samples.demo_page) Samples.abspath)
               (Browser.fresh Samples.demo_page) ∅ in
  let s := world (snd out) in
  Browser.display_text Samples.demo_page
    (Browser.fresh Samples.demo_page) 0 = "0" /\
  click (locator "#start-button") ∈ returns (trace (snd out)) /\
  expect_not_to_have_text (locator "#line-count") "0" (Some 5000)
    ∈ returns (trace (snd out)) /\
  Browser.started s = Some 0 /\ 0 <= Browser.now s <= 5000 /\
  Browser.display_text Samples.demo_page s (Browser.now s) <> "0" /\
  fst out = Ok tt.
Proof.
  apply (start_changes_the_display Samples.abspath Samples.demo_page ∅).
  split.
  - reflexivity.
  - reflexivity.
  - intros l _. reflexivity.
  - reflexivity.
  - exists 800. split; [lia|]. by vm_compute.
  - decide_by_computation.
  - reflexivity.
Defined.

Lemma clusters_scenario_witness :
  let out := run (verify_clusters.main
                    (Browser.respond Samples.demo_page) Samples.abspath)
               (Browser.fresh Samples.demo_page) ∅ in
  fst out = Ok tt /\
  throws (trace (snd out)) = [] /\
  calls (trace (snd out)) =
    sync_playwright_enter :: clusters_calls Samples.abspath
    ++ [sync_playwright_exit] /\
  locators_of (calls (trace (snd out))) =
    [locator "#start-button"; locator "#pause-button"] /\
  (forall l, l ∈ locators_of (calls (trace (snd out))) ->
     Browser.resolves Samples.demo_page l) /\
  Browser.now (world (snd out)) = 3000.
Proof.
  apply (clusters_scenario Samples.abspath Samples.demo_page ∅).
  split.
  - reflexivity.
  - reflexivity.
  - intros l _. reflexivity.
  - reflexivity.
  - exists 800. split; [lia|]. by vm_compute.
  - decide_by_computation.
  - reflexivity.
Defined.

(** C9, as stated, fails: the scenario completes on a page that keeps to
    the contract, and it uses two locators, not three. *)
Lemma clusters_uses_two_locators :
  let out := run (verify_clusters.main
                    (Browser.respond Samples.demo_page) Samples.abspath)
               (Browser.fresh Samples.demo_page) ∅ in
  fst out = Ok tt /\
  locators_of (calls (trace (snd out))) =
    [locator "#start-button"; locator "#pause-button"] /\
  length (locators_of (calls (trace (snd out)))) <> 3%nat.
Proof. cbn zeta. repeat split; by vm_compute. Qed.

Lemma clusters_checks_no_postcondition_witness :
  let out := run (verify_clusters.main
                    (Browser.respond Samples.idle_page) Samples.abspath)
               (Browser.fresh Samples.idle_page) ∅ in
  fst out = Ok tt /\ exit_code (fst out) = 0 /\
  stdout (trace (snd out)) =
    ["Screenshot saved to jules-scratch/verification/verification.png"].
Proof.
  cbn zeta.
  destruct (clusters_checks_no_postcondition Samples.abspath
              Samples.idle_page ∅)
    as (Hres & Hexit & _ & Hout & _).
  - reflexivity.
  - reflexivity.
  - exists 0. split; [reflexivity|by vm_compute].
  - exists 0. split; [reflexivity|by vm_compute].
  - reflexivity.
  - split; [exact Hres|]. split; [exact Hexit|exact Hout].
Defined.

(** * Further properties of the scripts

    What the code of the three scripts shows beyond the claims above, for
    every behaviour of the browser. *)

(** Every run of every script, by its segments. *)
Ltac run_cases respond abspath s w files :=
  let Hres := fresh "Hres" in
  let Htr := fresh "Htr" in
  destruct s;
  cbn [main_of screenshot_path_of script_calls confirmation_of];
  [ destruct (simulation_anatomy respond abspath w files)
      as [(? & ? & ? & Hres & Htr)
         |[(? & ? & ? & ? & ? & ? & ? & ? & Hres & Htr)
          |(? & ? & ? & ? & ? & ? & ? & ? & ? & ? & ? & ? & ? & Hres & Htr)]];
    [| |cbn zeta in Htr; destruct Htr as (Htr & _)]
  | unfold run; rewrite boundary_shape;
    destruct (scoped_anatomy respond (boundary_calls abspath)
                ("Screenshot saved to "
                 +:+ verify_boundary_conditions.screenshot_path)
                (initial w files))
      as [(? & ? & ? & Hres & (Htr & _))
         |(? & ? & ? & ? & ? & ? & ? & ? & (Htr & _) & Hres)]
  | unfold run; rewrite clusters_shape;
    destruct (scoped_anatomy respond (clusters_calls abspath)
                ("Screenshot saved to " +:+ verify_clusters.screenshot_path)
                (initial w files))
      as [(? & ? & ? & Hres & (Htr & _))
         |(? & ? & ? & ? & ? & ? & ? & ? & (Htr & _) & Hres)] ];
  rewrite ?Hres, ?Htr; clear Hres Htr;
  change (trace (initial w files)) with (@nil Obs); rewrite ?app_nil_l.

Ltac here_or_further :=
  by repeat first [apply list_elem_of_here|apply list_elem_of_further].

Ltac tidy :=
  unfold simulation_steps, boundary_calls, clusters_calls;
  cbn [calls returns throws saved stdout listens omap list_omap app
       first_raise caught].

Section Order.
Context {W : Type}.
Variable respond : Call -> W -> Response * W.
Variable abspath : string -> string.

(** X1.  In every run of any of the three scripts that writes a
    screenshot, every step the script has before the screenshot, the
    assertions included, has returned, in program order: the calls that
    returned are the scope entry, then all the script's calls but the last
    ([browser.close()]), then at most the release. *)
Theorem capture_after_steps (s : Script) (w : W)
    (files : gmap string (list byte)) :
  let tr := trace (snd (run (main_of s respond abspath) w files)) in
  saved tr <> [] ->
  exists rest,
    returns tr =
      sync_playwright_enter :: removelast (script_calls s abspath) ++ rest /\
    Forall (fun c => c ∈ [close; sync_playwright_exit]) rest.
Proof.
  cbn zeta. run_cases respond abspath s w files;
    project; intros Hsaved; try done; cbn;
    (eexists; split; [reflexivity|]);
    repeat (apply Forall_cons; split; [here_or_further|]);
    apply Forall_nil_2.
Qed.
End Order.

Section Outcome.
Context {W : Type}.
Variable respond : Call -> W -> Response * W.
Variable abspath : string -> string.

(** X2.  In every run of [verify_simulation.py] that acquires its session
    standard output is the outcome of the [try] followed by the report, and
    the outcome is one of two things, never both: the confirmation line,
    exactly when the screenshot call returned (then no step raised); or,
    when a step raised, the error line of that exception if it is an
    [Exception] and nothing if it is not. *)
Theorem outcome_reported_once (w : W) (files : gmap string (list byte)) :
  let out := run (verify_simulation.main respond abspath) w files in
  let tr := trace (snd out) in
  let shot := screenshot (Some verify_simulation.screenshot_path) None in
  new_page ∈ returns tr ->
  exists outcome cm pe,
    stdout tr = outcome ++ report_lines cm pe /\
    ((shot ∈ returns tr /\ outcome = [confirmation_of simulation] /\
      Forall (fun ce => fst ce ∉ simulation_steps abspath) (throws tr)) \/
     ((shot ∉ returns tr) /\
      exists c e,
        (c, e) ∈ throws tr /\ c ∈ simulation_steps abspath /\
        outcome = (if is_Exception e then [error_line e] else []))).
Proof.
  cbn zeta. intros Hacq.
  destruct (acquired_anatomy respond abspath w files Hacq)
    as (t0 & t1 & res & ts & resc & tc & res2 & t2
        & R0 & R1 & Rs & Rc & R2 & _ & Hs).
  cbn zeta in Hs. destruct Hs as (-> & _). clear Hacq.
  exists (stdout (outcome_lines res)),
    (map format_console (console_of (emitted ts))),
    (map str_exn (page_errors_of (emitted ts))).
  project.
  all: cbn [returns throws omap list_omap app]; rewrite ?app_nil_r.
  all: split; [reflexivity|].
  all: first
    [ left; split; [decide_by_computation|];
      split; [reflexivity|decide_by_computation]
    | right; split; [intros Hin; by refute_in Hin|];
      eexists _, _;
      split; [by repeat first [apply list_elem_of_here
                              |apply list_elem_of_further]|];
      split; [|reflexivity];
      unfold simulation_steps;
      by repeat first [apply list_elem_of_here|apply list_elem_of_further] ].
Qed.

(** X3.  [except Exception] does not catch a [KeyboardInterrupt]: when a
    step of [verify_simulation.py] raises one, no error line is printed,
    the [finally] block still prints the report and calls
    [browser.close()] as the last call before the scope is left, and the
    run does not end normally; it ends in the interrupt when the release
    returns. *)
Theorem interrupt_passes_the_handler (w : W)
    (files : gmap string (list byte)) (c : Call) (e : Exn) :
  let out := run (verify_simulation.main respond abspath) w files in
  let tr := trace (snd out) in
  (c, e) ∈ throws tr ->
  c ∈ simulation_steps abspath ->
  is_Exception e = false ->
  (exists cm pe, stdout tr = report_lines cm pe) /\
  [close; sync_playwright_exit] `suffix_of` calls tr /\
  fst out <> Ok tt /\
  (close ∈ returns tr -> sync_playwright_exit ∈ returns tr ->
   fst out = Raise e).
Proof.
  cbn zeta. intros Hthrown Hstep Hexc. revert Hthrown.
  destruct (simulation_anatomy respond abspath w files)
    as [(e0 & t0 & R0 & _ & ->)
       |[(t0 & e0 & t1 & res2 & t2 & R0 & R1 & R2 & _ & ->)
        |(t0 & t1 & res & ts & resc & tc & res2 & t2
          & R0 & R1 & Rs & Rc & R2 & -> & Hs)]];
    [| |cbn zeta in Hs; destruct Hs as (-> & _)];
    project; intros Hthrown; in_cases Hthrown;
    try (by refute_in Hstep);
    rewrite ?Hexc; cbn [app caught first_raise]; rewrite ?Hexc;
    rewrite ?app_nil_r;
    (split; [by eexists _, _|]);
    (split; [decide_by_computation|]);
    (split; [done|]);
    intros Hclose Hexit;
    try (by refute_in Hclose); try (by refute_in Hexit); done.
Qed.

(** X14.  The report is printed before [browser.close()]: what the page
    emits from then on, while the browser closes and the scope is left, is
    still appended to [console_messages] and [page_errors] by the sinks
    but is never printed. *)
Theorem late_events_are_not_reported (w : W)
    (files : gmap string (list byte)) :
  let out := run (verify_simulation.main respond abspath) w files in
  new_page ∈ returns (trace (snd out)) ->
  exists before since rest,
    let cm := map format_console (console_of (emitted since)) in
    let pe := map str_exn (page_errors_of (emitted since)) in
    trace (snd out) =
      before ++ [Listening console; Listening pageerror] ++ since
      ++ map Printed (report_lines cm pe) ++ Called close :: rest /\
    (close ∉ calls (before ++ since)) /\
    stdout rest = [] /\
    console_messages (snd out) =
      cm ++ map format_console (console_of (emitted rest)) /\
    page_errors (snd out) =
      pe ++ map str_exn (page_errors_of (emitted rest)).
Proof.
  cbn zeta. intros Hacq.
  destruct (acquired_anatomy respond abspath w files Hacq)
    as (t0 & t1 & res & ts & resc & tc & res2 & t2
        & R0 & R1 & Rs & Rc & R2 & _ & Hs).
  cbn zeta in Hs. destruct Hs as (Htr & Hcm & Hpe & _).
  destruct (ran_single_head _ _ _ Rc) as (rest & -> & Hrest).
  exists (t0 ++ t1), (ts ++ outcome_lines res), (rest ++ t2).
  rewrite Hcm, Hpe, Htr. clear Htr Hcm Hpe Hacq.
  change (Called close :: rest) with ([Called close] ++ rest).
  autorewrite with trace. cbn [emitted omap list_omap app].
  rewrite ?app_nil_r.
  unfold console_of, page_errors_of. rewrite !omap_app, !map_app.
  split; [by rewrite <- !app_assoc|].
  split; [|split; [|done]].
  - clear Hrest. project; intros Hin; refute_in Hin.
  - rewrite Hrest. by destruct (ran_quiet _ _ _ R2) as [-> _].
Qed.
End Outcome.

Section Files.
Context {W : Type}.
Variable respond : Call -> W -> Response * W.
Variable abspath : string -> string.

Lemma simulation_files (w : W) (files : gmap string (list byte)) :
  let out := run (verify_simulation.main respond abspath) w files in
  fs (snd out) = write_all (saved (trace (snd out))) files.
Proof.
  cbn zeta. unfold run. rewrite simulation_shape.
  pose proof (scope_replay respond (simulation_session respond abspath)
                (initial w files)) as H.
  cbn zeta in H. cbn [world initial] in H.
  destruct (result (drive respond [sync_playwright_enter] w)) as [[]|e].
  2: { destruct H as (_ & _ & (T & _ & _ & _ & F)). by rewrite T, F. }
  destruct H as (s1 & Hw & (T0 & L0 & _ & _ & F0)
                 & (_ & _ & (T2 & _ & _ & _ & F2))).
  cbn [trace initial listeners fs app] in T0, L0, F0.
  cbn [result observed final] in T2, F2.
  rewrite T2, F2. clear T2 F2.
  pose proof (session_replay respond abspath s1 L0) as Hs. cbn zeta in Hs.
  destruct (result (drive respond [launch true; new_page] (world s1)))
    as [[]|e1].
  - destruct Hs as (_ & _ & -> & _ & _ & _ & ->). rewrite T0, F0.
    autorewrite with trace.
    rewrite (ran_saved_nil _ _ _ (drive_ran respond [close] _)) by done.
    cbn [saved omap list_omap app]. rewrite ?app_nil_r.
    by rewrite !write_all_app.
  - destruct Hs as (_ & _ & (-> & _ & _ & _ & ->)). rewrite T0, F0.
    autorewrite with trace. by rewrite !write_all_app.
Qed.

Lemma scoped_files (cs : list Call) (line : string) (w : W)
    (files : gmap string (list byte)) :
  let out := run (with_sync_playwright respond
                    (call_all respond cs ;; print line)) w files in
  fs (snd out) = write_all (saved (trace (snd out))) files.
Proof.
  cbn zeta. unfold run.
  destruct (scoped_replay_eq respond cs line (initial w files))
    as (_ & _ & (T & _ & _ & _ & F)).
  by rewrite T, F.
Qed.

(** The scripts write no file themselves: what a run leaves on disk is
    what it found, with the browser's screenshots written in order. *)
Lemma script_files (s : Script) (w : W) (files : gmap string (list byte)) :
  let out := run (main_of s respond abspath) w files in
  fs (snd out) = write_all (saved (trace (snd out))) files.
Proof.
  cbn zeta. destruct s; cbn [main_of].
  - apply simulation_files.
  - unfold run. rewrite boundary_shape. apply scoped_files.
  - unfold run. rewrite clusters_shape. apply scoped_files.
Qed.

End Files.

Section Cleanup.
Context {W : Type}.
Variable respond : Call -> W -> Response * W.
Variable abspath : string -> string.

(** X5.  No script handles a failure of [browser.close()]: when it
    raises, in any of the three scripts, the run does not end normally,
    whatever was caught or printed before; the [sync_playwright] scope is
    still left, and the run ends in the exception of [close] when leaving
    the scope returns. *)
Theorem close_failure_fails_the_run (s : Script) (w : W)
    (files : gmap string (list byte)) (e : Exn) :
  let out := run (main_of s respond abspath) w files in
  let tr := trace (snd out) in
  (close, e) ∈ throws tr ->
  fst out <> Ok tt /\
  sync_playwright_exit ∈ calls tr /\
  (sync_playwright_exit ∈ returns tr -> fst out = Raise e).
Proof.
  cbn zeta. run_cases respond abspath s w files;
    project; intros Hthrown; in_cases Hthrown; simplify_eq; tidy;
    (split; [done|]); (split; [here_or_further|]);
    intros Hexit; try (by refute_in Hexit); done.
Qed.
End Cleanup.

Section Scope.
Context {W : Type}.
Variable respond : Call -> W -> Response * W.
Variable abspath : string -> string.

(** X6.  A failure of the [sync_playwright] context manager itself is
    never caught: when entering or leaving the scope raises, in any of the
    three scripts, the run ends in that exception.  When entering raises
    nothing else happens: no further call, no output, no file written. *)
Theorem scope_failure_ends_the_run (s : Script) (w : W)
    (files : gmap string (list byte)) (c : Call) (e : Exn) :
  let out := run (main_of s respond abspath) w files in
  let tr := trace (snd out) in
  (c, e) ∈ throws tr ->
  c = sync_playwright_enter \/ c = sync_playwright_exit ->
  fst out = Raise e /\
  (c = sync_playwright_enter ->
   calls tr = [sync_playwright_enter] /\ stdout tr = [] /\
   fs (snd out) = files).
Proof.
  cbn zeta. rewrite script_files.
  run_cases respond abspath s w files;
    project; intros Hthrown Hc; in_cases Hthrown; simplify_eq; tidy;
    try (by destruct Hc);
    (split; [done|]); intros Henter; simplify_eq; done.
Qed.

(** X7.  In [verify_simulation.py] the browser is launched and the page
    opened before the [try]: when [launch] or [new_page] raises, the
    handler and the [finally] block are not entered, so nothing at all is
    printed (no error line, no report), no sink is registered,
    [browser.close()] is not called, and the run ends in the exception
    when leaving the scope returns. *)
Theorem acquisition_failure_is_not_caught (w : W)
    (files : gmap string (list byte)) (c : Call) (e : Exn) :
  let out := run (verify_simulation.main respond abspath) w files in
  let tr := trace (snd out) in
  (c, e) ∈ throws tr ->
  c = launch true \/ c = new_page ->
  stdout tr = [] /\ listens tr = [] /\ (close ∉ calls tr) /\
  fst out <> Ok tt /\
  (sync_playwright_exit ∈ returns tr -> fst out = Raise e).
Proof.
  cbn zeta. intros Hthrown Hc. revert Hthrown.
  destruct (simulation_anatomy respond abspath w files)
    as [(e0 & t0 & R0 & -> & ->)
       |[(t0 & e0 & t1 & res2 & t2 & R0 & R1 & R2 & -> & ->)
        |(t0 & t1 & res & ts & resc & tc & res2 & t2
          & R0 & R1 & Rs & Rc & R2 & -> & Hs)]];
    [| |cbn zeta in Hs; destruct Hs as (-> & _)];
    project; intros Hthrown; in_cases Hthrown; simplify_eq; tidy;
    try (by destruct Hc);
    (split; [done|]); (split; [done|]);
    (split; [intros Hin; by refute_in Hin|]);
    (split; [done|]);
    intros Hexit; try (by refute_in Hexit); done.
Qed.

(** X8.  What ending normally means.  [verify_simulation.py] ends
    normally exactly when [browser.close()] and the scope exit returned
    and nothing raised was other than an [Exception]; a failed step does
    not show in the exit status.  [verify_boundary_conditions.py] and
    [verify_clusters.py] end normally exactly when no call raised. *)
Theorem exit_status_meaning (w : W) (files : gmap string (list byte)) :
  let sim := run (verify_simulation.main respond abspath) w files in
  let bnd := run (verify_boundary_conditions.main respond abspath)
               w files in
  let clu := run (verify_clusters.main respond abspath) w files in
  (fst sim = Ok tt <->
     close ∈ returns (trace (snd sim)) /\
     sync_playwright_exit ∈ returns (trace (snd sim)) /\
     Forall (fun ce => is_Exception (snd ce) = true)
       (throws (trace (snd sim)))) /\
  (fst bnd = Ok tt <-> throws (trace (snd bnd)) = []) /\
  (fst clu = Ok tt <-> throws (trace (snd clu)) = []).
Proof.
  cbn zeta. split; [|split].
  - destruct (simulation_anatomy respond abspath w files)
      as [(e0 & t0 & R0 & -> & ->)
         |[(t0 & e0 & t1 & res2 & t2 & R0 & R1 & R2 & -> & ->)
          |(t0 & t1 & res & ts & resc & tc & res2 & t2
            & R0 & R1 & Rs & Rc & R2 & -> & Hs)]];
      [| |cbn zeta in Hs; destruct Hs as (-> & _)];
      project; tidy;
      (split;
       [ intros Hok; try discriminate Hok;
         (split; [here_or_further|]); (split; [here_or_further|]);
         repeat constructor; cbn [snd];
         by destruct (is_Exception _)
       | intros (Hclose & Hexit & Hall);
         try (by refute_in Hclose); try (by refute_in Hexit);
         repeat match goal with
           | H : Forall _ (_ :: _) |- _ =>
               apply Forall_cons in H as [? H]
           end;
         cbn [snd] in *;
         repeat match goal with
           | H : is_Exception _ = true |- _ => rewrite H
           end;
         done ]).
  - unfold run. rewrite boundary_shape.
    destruct (scoped_anatomy respond (boundary_calls abspath)
                ("Screenshot saved to "
                 +:+ verify_boundary_conditions.screenshot_path)
                (initial w files))
      as [(e & t0 & R0 & -> & (-> & _))
         |(t0 & res & t1 & res2 & t2 & R0 & R1 & R2 & (-> & _) & ->)];
      cbn [trace initial app]; project; tidy; by split.
  - unfold run. rewrite clusters_shape.
    destruct (scoped_anatomy respond (clusters_calls abspath)
                ("Screenshot saved to " +:+ verify_clusters.screenshot_path)
                (initial w files))
      as [(e & t0 & R0 & -> & (-> & _))
         |(t0 & res & t1 & res2 & t2 & R0 & R1 & R2 & (-> & _) & ->)];
      cbn [trace initial app]; project; tidy; by split.
Qed.
End Scope.

Section Discipline.
Context {W : Type}.
Variable respond : Call -> W -> Response * W.
Variable abspath : string -> string.

(** X9.  No script uses the browser after closing it: in every run in
    which [browser.close()] is called, it is the last call but one, and
    the last is leaving the [sync_playwright] scope. *)
Theorem nothing_after_close (s : Script) (w : W)
    (files : gmap string (list byte)) :
  let tr := trace (snd (run (main_of s respond abspath) w files)) in
  close ∈ calls tr ->
  [close; sync_playwright_exit] `suffix_of` calls tr.
Proof.
  cbn zeta. run_cases respond abspath s w files;
    project; tidy; intros Hin; try (by refute_in Hin);
    decide_by_computation.
Qed.

(** X10.  [verify_boundary_conditions.py] and [verify_clusters.py] print
    their confirmation line after [browser.close()]: all a run prints is
    that line when [close] returned and nothing otherwise, also when the
    screenshot was written; and they register no sink, so that what the
    page logs is never shown. *)
Theorem confirmation_follows_release (s : Script) (w : W)
    (files : gmap string (list byte)) :
  let tr := trace (snd (run (main_of s respond abspath) w files)) in
  s <> simulation ->
  stdout tr =
    (if bool_decide (close ∈ returns tr) then [confirmation_of s] else []) /\
  listens tr = [].
Proof.
  cbn zeta. intros Hs. revert Hs.
  run_cases respond abspath s w files; intros Hs; try done;
    project; tidy; by vm_compute.
Qed.

(** X12.  Steps run in program order and a failure skips the rest: in
    every run of any script, a call is issued only if the scope was
    entered and every call before it in the script has returned.  The one
    exception is [browser.close()] in [verify_simulation.py], which its
    [finally] block issues also after a failed step. *)
Theorem steps_run_in_order (s : Script) (w : W)
    (files : gmap string (list byte)) (pre post : list Call) (c : Call) :
  let tr := trace (snd (run (main_of s respond abspath) w files)) in
  script_calls s abspath = pre ++ c :: post ->
  c ∈ calls tr ->
  s <> simulation \/ c <> close ->
  Forall (fun c' => c' ∈ returns tr) (sync_playwright_enter :: pre).
Proof.
  cbn zeta.
  run_cases respond abspath s w files;
    project; tidy; intros Hsplit Hin Hnot;
    unfold boundary_calls, clusters_calls, simulation_steps in Hsplit;
    cbn [app] in Hsplit; split_prefix Hsplit pre;
    try (by refute_in Hin);
    try (by destruct Hnot);
    repeat (apply Forall_cons; split; [here_or_further|]);
    apply Forall_nil_2.
Qed.

(** X13.  [verify_boundary_conditions.py] and [verify_clusters.py] write
    their screenshot to the same path, [verify_simulation.py] to one of its
    own.  Of two runs in succession whose screenshot calls return, the
    second leaves its image at its path; the image of the first is still
    there afterwards exactly when one of the two scripts is
    [verify_simulation.py] and the other is not. *)
Theorem later_run_replaces_shared_screenshot (s1 s2 : Script) (w1 w2 : W)
    (files : gmap string (list byte)) :
  let first := run (main_of s1 respond abspath) w1 files in
  let second := run (main_of s2 respond abspath) w2 (fs (snd first)) in
  screenshot (Some (screenshot_path_of s1)) None
    ∈ returns (trace (snd first)) ->
  screenshot (Some (screenshot_path_of s2)) None
    ∈ returns (trace (snd second)) ->
  exists image1 image2,
    saved (trace (snd first)) = [(screenshot_path_of s1, image1)] /\
    saved (trace (snd second)) = [(screenshot_path_of s2, image2)] /\
    fs (snd second) !! screenshot_path_of s2 = Some image2 /\
    fs (snd second) !! screenshot_path_of s1 =
      Some (if decide (screenshot_path_of s1 = screenshot_path_of s2)
            then image2 else image1) /\
    (screenshot_path_of s1 = screenshot_path_of s2 <->
     (s1 = simulation <-> s2 = simulation)).
Proof.
  cbn zeta. intros Hin1 Hin2.
  destruct (capture_anatomy respond abspath s1 w1 files Hin1)
    as [(image1 & Hsaved1 & Hfs1) _].
  destruct (capture_anatomy respond abspath s2 w2 _ Hin2)
    as [(image2 & Hsaved2 & Hfs2) _].
  exists image1, image2. rewrite Hsaved1, Hsaved2, Hfs2, Hfs1.
  split; [done|]. split; [done|].
  split; [apply lookup_insert_eq|]. split.
  - destruct (decide (screenshot_path_of s1 = screenshot_path_of s2))
      as [->|Hne].
    + apply lookup_insert_eq.
    + rewrite lookup_insert_ne by done. apply lookup_insert_eq.
  - destruct s1, s2; split; intros H; try done; try (by split);
      exfalso; destruct H as [H1 H2];
      first [by discriminate (H1 eq_refl)|by discriminate (H2 eq_refl)].
Qed.
End Discipline.

(** ** The properties on sample browsers *)

(** The healthy page: the screenshot follows the value assertion. *)
Lemma capture_after_steps_witness :
  exists rest,
    returns (trace (snd (run (main_of boundary_conditions Samples.healthy
                                Samples.abspath) tt ∅))) =
      sync_playwright_enter
      :: removelast (script_calls boundary_conditions Samples.abspath)
      ++ rest /\
    Forall (fun c => c ∈ [close; sync_playwright_exit]) rest.
Proof.
  apply (capture_after_steps Samples.healthy Samples.abspath
           boundary_conditions tt ∅).
  by vm_compute.
Defined.

(** The frozen display: an error line and no confirmation. *)
Lemma outcome_reported_once_witness :
  let out := run (verify_simulation.main Samples.frozen_display
                    Samples.abspath) tt ∅ in
  let tr := trace (snd out) in
  let shot := screenshot (Some verify_simulation.screenshot_path) None in
  exists outcome cm pe,
    stdout tr = outcome ++ report_lines cm pe /\
    ((shot ∈ returns tr /\ outcome = [confirmation_of simulation] /\
      Forall (fun ce => fst ce ∉ simulation_steps Samples.abspath)
        (throws tr)) \/
     ((shot ∉ returns tr) /\
      exists c e,
        (c, e) ∈ throws tr /\ c ∈ simulation_steps Samples.abspath /\
        outcome = (if is_Exception e then [error_line e] else []))).
Proof.
  apply (outcome_reported_once Samples.frozen_display Samples.abspath tt ∅).
  decide_by_computation.
Defined.

(** An interrupt during the click on start. *)
Lemma interrupt_passes_the_handler_witness :
  let out := run (verify_simulation.main Faults.interrupted
                    Samples.abspath) tt ∅ in
  fst out = Raise KeyboardInterrupt /\
  [close; sync_playwright_exit] `suffix_of` calls (trace (snd out)) /\
  exists cm pe, stdout (trace (snd out)) = report_lines cm pe.
Proof.
  cbn zeta.
  destruct (interrupt_passes_the_handler Faults.interrupted Samples.abspath
              tt ∅ (click (locator "#start-button")) KeyboardInterrupt)
    as (Hreport & Hclose & _ & Hres).
  - decide_by_computation.
  - decide_by_computation.
  - reflexivity.
  - split; [apply Hres; decide_by_computation|]. by split.
Defined.

(** The confirmation is printed and the run fails all the same. *)
Lemma close_failure_fails_the_run_witness :
  let out := run (main_of simulation Faults.close_fails Samples.abspath)
               tt ∅ in
  fst out = Raise (OtherException "Target closed") /\
  confirmation_of simulation ∈ stdout (trace (snd out)).
Proof.
  cbn zeta.
  destruct (close_failure_fails_the_run Faults.close_fails Samples.abspath
              simulation tt ∅ (OtherException "Target closed"))
    as (_ & _ & Hres).
  - decide_by_computation.
  - split; [apply Hres|]; decide_by_computation.
Defined.

(** The driver does not start. *)
Lemma scope_failure_ends_the_run_witness :
  let out := run (main_of clusters Faults.no_driver Samples.abspath) tt ∅ in
  fst out = Raise (EnvironmentError "driver not found") /\
  calls (trace (snd out)) = [sync_playwright_enter] /\
  stdout (trace (snd out)) = [] /\
  fs (snd out) = ∅.
Proof.
  cbn zeta.
  destruct (scope_failure_ends_the_run Faults.no_driver Samples.abspath
              clusters tt ∅ sync_playwright_enter
              (EnvironmentError "driver not found"))
    as (Hres & Hnothing).
  - decide_by_computation.
  - by left.
  - split; [exact Hres|]. by apply Hnothing.
Defined.

(** No browser runtime: not a word on standard output. *)
Lemma acquisition_failure_is_not_caught_witness :
  let out := run (verify_simulation.main Faults.no_browser Samples.abspath)
               tt ∅ in
  stdout (trace (snd out)) = [] /\
  fst out = Raise (EnvironmentError "no browser runtime").
Proof.
  cbn zeta.
  destruct (acquisition_failure_is_not_caught Faults.no_browser
              Samples.abspath tt ∅ (launch true)
              (EnvironmentError "no browser runtime"))
    as (Hquiet & _ & _ & _ & Hres).
  - decide_by_computation.
  - by left.
  - split; [exact Hquiet|]. apply Hres. decide_by_computation.
Defined.

(** The healthy page. *)
Lemma nothing_after_close_witness :
  [close; sync_playwright_exit]
    `suffix_of` calls (trace (snd (run (main_of boundary_conditions
                                          Samples.healthy Samples.abspath)
                                     tt ∅))).
Proof.
  apply (nothing_after_close Samples.healthy Samples.abspath
           boundary_conditions tt ∅).
  decide_by_computation.
Defined.

(** Navigation is attempted, and fails, after the page was opened. *)
Lemma steps_run_in_order_witness :
  let tr := trace (snd (run (main_of clusters Samples.broken_navigation
                               Samples.abspath) tt ∅)) in
  Forall (fun c' => c' ∈ returns tr)
    [sync_playwright_enter; launch true; new_page].
Proof.
  apply (steps_run_in_order Samples.broken_navigation Samples.abspath
           clusters tt ∅ [launch true; new_page]
           [click (locator "#start-button"); wait_for_timeout 3000;
            click (locator "#pause-button");
            screenshot (Some verify_clusters.screenshot_path) None; close]
           (goto "file:///repo/index.html")).
  - reflexivity.
  - decide_by_computation.
  - by left.
Defined.

(** The screenshot is on disk and no confirmation is printed. *)
Lemma confirmation_follows_release_witness :
  let out := run (main_of clusters Faults.close_fails Samples.abspath)
               tt ∅ in
  stdout (trace (snd out)) = [] /\
  fs (snd out) !! verify_clusters.screenshot_path = Some Samples.png.
Proof.
  cbn zeta.
  destruct (confirmation_follows_release Faults.close_fails Samples.abspath
              clusters tt ∅) as (Hout & _).
  - done.
  - split; [|by vm_compute]. rewrite Hout.
    by rewrite bool_decide_eq_false_2
      by (intros Hin; apply (bool_decide_pack _) in Hin;
          by vm_compute in Hin).
Defined.

(** [verify_clusters.py] run after [verify_boundary_conditions.py]. *)
Lemma later_run_replaces_shared_screenshot_witness :
  let first := run (main_of boundary_conditions Samples.healthy
                      Samples.abspath) tt ∅ in
  let second := run (main_of clusters Samples.healthy Samples.abspath)
                  tt (fs (snd first)) in
  exists image1 image2,
    saved (trace (snd first)) =
      [(screenshot_path_of boundary_conditions, image1)] /\
    saved (trace (snd second)) = [(screenshot_path_of clusters, image2)] /\
    fs (snd second) !! screenshot_path_of clusters = Some image2 /\
    fs (snd second) !! screenshot_path_of boundary_conditions =
      Some (if decide (screenshot_path_of boundary_conditions
                       = screenshot_path_of clusters)
            then image2 else image1) /\
    (screenshot_path_of boundary_conditions = screenshot_path_of clusters <->
     (boundary_conditions = simulation <-> clusters = simulation)).
Proof.
  apply (later_run_replaces_shared_screenshot Samples.healthy
           Samples.abspath boundary_conditions clusters tt tt ∅);
    decide_by_computation.
Defined.

(** An error logged while the browser closes is captured and not shown. *)
Lemma late_events_are_not_reported_witness :
  let out := run (verify_simulation.main Faults.noisy_close
                    Samples.abspath) tt ∅ in
  (exists before since rest,
     let cm := map format_console (console_of (emitted since)) in
     let pe := map str_exn (page_errors_of (emitted since)) in
     trace (snd out) =
       before ++ [Listening console; Listening pageerror] ++ since
       ++ map Printed (report_lines cm pe) ++ Called close :: rest /\
     (close ∉ calls (before ++ since)) /\
     stdout rest = [] /\
     console_messages (snd out) =
       cm ++ map format_console (console_of (emitted rest)) /\
     page_errors (snd out) =
       pe ++ map str_exn (page_errors_of (emitted rest))) /\
  console_messages (snd out) =
    ["[log] ready"; "[warning] slow"; "[error] late"] /\
  "[error] late" ∉ stdout (trace (snd out)).
Proof.
  cbn zeta. split.
  - apply (late_events_are_not_reported Faults.noisy_close Samples.abspath
             tt ∅).
    decide_by_computation.
  - split; [by vm_compute|]. intros Hin. by refute_in Hin.
Defined.

(** * Standard output that may fail

    The scripts on a standard output that can refuse a line: their
    anatomy, and the release of the session on every exit path. *)

Section StdoutFacts.
Context {W : Type}.
Variable respond : Call -> W -> Response * W.
Variable write : string -> W -> option Exn.
Variable abspath : string -> string.

Lemma prints_only_print (line : string) :
  Stdout.prints_only (Stdout.print write line).
Proof.
  intros st. unfold Stdout.print.
  destruct (write line (world st)) as [e|]; cbn [fst snd].
  - exists []. split; [done|]. apply after_refl.
  - exists [line]. split; [done|]. apply print_after.
Qed.

Lemma prints_only_ret {A} (a : A) : Stdout.prints_only (W:=W) (ret a).
Proof. intros st. exists []. split; [done|]. apply after_refl. Qed.

Lemma prints_only_bind {A B} (m : M W A) (k : A -> M W B) :
  Stdout.prints_only m -> (forall a, Stdout.prints_only (k a)) ->
  Stdout.prints_only (bind m k).
Proof.
  intros Hm Hk st. unfold bind.
  destruct (Hm st) as (ls1 & W1 & A1).
  destruct (m st) as [[a|e] s1]; cbn [fst snd] in *.
  - destruct (Hk a s1) as (ls2 & W2 & A2).
    exists (ls1 ++ ls2). split; [by rewrite W2|].
    rewrite map_app. by eapply after_trans.
  - by exists ls1.
Qed.

Lemma prints_only_print_each (xs : list string) :
  Stdout.prints_only (Stdout.print_each write xs).
Proof.
  induction xs as [|x xs IH]; cbn [Stdout.print_each].
  - apply prints_only_ret.
  - apply prints_only_bind; [apply prints_only_print|done].
Qed.

Lemma prints_only_report :
  Stdout.prints_only (Stdout.verify_simulation.report write).
Proof.
  unfold Stdout.verify_simulation.report.
  apply prints_only_bind; [apply prints_only_print|intros _].
  apply prints_only_bind.
  { intros st. exists []. split; [done|]. apply after_refl. }
  intros msgs. apply prints_only_bind.
  { destruct msgs; [apply prints_only_print|apply prints_only_print_each]. }
  intros _. apply prints_only_bind; [apply prints_only_print|intros _].
  apply prints_only_bind.
  { intros st. exists []. split; [done|]. apply after_refl. }
  intros errs.
  destruct errs; [apply prints_only_print|apply prints_only_print_each].
Qed.
End StdoutFacts.

Section StdoutAnatomy.
Context {W : Type}.
Variable respond : Call -> W -> Response * W.
Variable write : string -> W -> option Exn.
Variable abspath : string -> string.



Lemma simulation_stdout_shape (st : St W) :
  Stdout.verify_simulation.main respond write abspath st =
  with_sync_playwright respond
    (Stdout.simulation_session respond write abspath) st.
Proof.
  unfold Stdout.verify_simulation.main,
    Stdout.verify_simulation.run_verification,
    Stdout.verify_simulation.steps, Stdout.verify_simulation.teardown,
    Stdout.simulation_session, simulation_steps,
    Stdout.verify_simulation.screenshot_path,
    verify_simulation.screenshot_path.
  lockstep; reflexivity.
Qed.


(** Lines 19-43: the [try] with its handler, which prints and may fail to. *)
Lemma guarded_steps_stdout (st : St W) :
  let d := drive respond (simulation_steps abspath) (world st) in
  let out := try_except
               (call_all respond (simulation_steps abspath) ;;
                Stdout.print write
                  ("Screenshot saved to "
                   +:+ Stdout.verify_simulation.screenshot_path))
               (Stdout.verify_simulation.on_error write) st in
  exists ls,
    world (snd out) = final d /\
    trace (snd out) = trace st ++ observed d ++ map Printed ls.
Proof.
  cbn zeta. unfold try_except, bind.
  destruct (call_all_drive respond (simulation_steps abspath) st)
    as (B1 & B2 & (B3 & _)).
  destruct (call_all respond _ st) as [[[]|e] s1]; cbn [fst snd] in *;
    rewrite <- B2.
  - destruct (prints_only_print write
                ("Screenshot saved to "
                 +:+ Stdout.verify_simulation.screenshot_path) s1)
      as (ls & W1 & (P1 & _)).
    destruct (Stdout.print write _ s1) as [[[]|e] s2]; cbn [fst snd] in *.
    + exists ls. split; [done|]. by rewrite P1, B3, <- app_assoc.
    + destruct (is_Exception e); cbn [fst snd].
      * destruct (prints_only_print write
                    (nl +:+ "An error occurred during Playwright execution: "
                        +:+ str_exn e) s2) as (ls2 & W2 & (P2 & _)).
        unfold Stdout.verify_simulation.on_error.
        exists (ls ++ ls2). split; [by rewrite W2|].
        by rewrite P2, P1, B3, map_app, <- !app_assoc.
      * exists ls. split; [done|]. by rewrite P1, B3, <- app_assoc.
  - destruct (is_Exception e); cbn [fst snd].
    + destruct (prints_only_print write
                  (nl +:+ "An error occurred during Playwright execution: "
                      +:+ str_exn e) s1) as (ls2 & W2 & (P2 & _)).
      unfold Stdout.verify_simulation.on_error.
      exists ls2. split; [done|]. by rewrite P2, B3, <- !app_assoc.
    + exists []. split; [done|]. cbn [map]. by rewrite B3, app_nil_r.
Qed.

(** Lines 45-62: the [finally] block reaches [browser.close()] only if
    the report could be printed. *)
Lemma teardown_stdout (st : St W) :
  let out := (Stdout.verify_simulation.report write ;; call respond close) st
  in
  exists ls tc,
    trace (snd out) = trace st ++ map Printed ls ++ tc /\
    ((tc = [] /\
      exists e, fst (Stdout.verify_simulation.report write st) = Raise e /\
                fst out = Raise e) \/
     (tc = observed (drive respond [close] (world st)) /\
      fst (Stdout.verify_simulation.report write st) = Ok tt)).
Proof.
  cbn zeta. unfold bind.
  destruct (prints_only_report write st) as (ls & W1 & (P1 & _)).
  destruct (Stdout.verify_simulation.report write st) as [[[]|e] s1];
    cbn [fst snd] in *.
  - destruct (call_drive respond close s1) as (_ & _ & (C3 & _)).
    exists ls, (observed (drive respond [close] (world st))).
    rewrite C3, P1, W1. split; [symmetry; apply app_assoc|by right].
  - exists ls, []. rewrite P1, app_nil_r. split; [done|left].
    split; [done|]. by exists e.
Qed.
End StdoutAnatomy.

Section StdoutRuns.
Context {W : Type}.
Variable respond : Call -> W -> Response * W.
Variable write : string -> W -> option Exn.
Variable abspath : string -> string.

(** The body of the [with] block of [verify_simulation.py]. *)
Lemma session_stdout (s1 : St W) :
  let out := Stdout.simulation_session respond write abspath s1 in
  let acquired := drive respond [launch true; new_page] (world s1) in
  match result acquired with
  | Raise _ => trace (snd out) = trace s1 ++ observed acquired
  | Ok _ =>
      let steps := drive respond (simulation_steps abspath) (final acquired)
      in
      exists ls tc,
        trace (snd out) =
          trace s1 ++ observed acquired
          ++ [Listening console; Listening pageerror]
          ++ observed steps ++ map Printed ls ++ tc /\
        ((tc = [] /\
          (exists st e,
             fst (Stdout.verify_simulation.report write st) = Raise e) /\
          exists e, fst out = Raise e) \/
         (tc = observed (drive respond [close] (final steps)) /\
          exists st, fst (Stdout.verify_simulation.report write st) = Ok tt))
  end.
Proof.
  cbn zeta.
  destruct (Stdout.simulation_session respond write abspath s1)
    as [r sf] eqn:E.
  cbn [fst snd]. unfold Stdout.simulation_session in E.
  unfold bind at 1 in E.
  destruct (call_all_drive respond [launch true; new_page] s1)
    as (A1 & A2 & (T1 & _)).
  destruct (call_all respond [launch true; new_page] s1) as [[[]|e1] s2];
    cbn [fst snd] in *; rewrite <- A1.
  2: { by injection E as <- <-. }
  rewrite <- A2. clear A1.
  unfold bind, new_lists, page_on, log, try_finally in E.
  cbn [fst snd world trace listeners console_messages page_errors fs] in E.
  match type of E with
  | context [try_except ?b ?h ?s] =>
      destruct (guarded_steps_stdout respond write abspath s)
        as (ls1 & G1 & G2);
      change (try_except _ _ s) with (try_except b h s) in G1, G2;
      destruct (try_except b h s) as [r3 s4]
  end.
  cbn [fst snd world trace] in *.
  destruct (teardown_stdout respond write s4) as (ls2 & tc & C1 & C2).
  unfold bind in C1.
  destruct (Stdout.verify_simulation.report write s4) as [[[]|e4] s5]
    eqn:Er; cbn [fst snd] in *.
  - destruct (call respond close s5) as [r6 s6]. cbn [fst snd] in *.
    assert (sf = s6) as -> by (destruct r6; by injection E as <- <-).
    exists (ls1 ++ ls2), tc. rewrite G1 in C2. split.
    { rewrite C1, G2, T1, map_app, <- !app_assoc. reflexivity. }
    destruct C2 as [(_ & e & He & _)|(-> & Hok)]; [done|right].
    split; [done|]. exists s4. by rewrite Er.
  - injection E as <- <-.
    exists (ls1 ++ ls2), tc. rewrite G1 in C2. split.
    { rewrite C1, G2, T1, map_app, <- !app_assoc. reflexivity. }
    destruct C2 as [(-> & e & He & _)|(_ & Hok)]; [left|done].
    split; [done|]. split; [|by exists e4]. exists s4, e4. by rewrite Er.
Qed.

(** [verify_simulation.py] as a process whose standard output may fail. *)
Lemma simulation_stdout_anatomy (w : W) (files : gmap string (list byte)) :
  let out := run (Stdout.verify_simulation.main respond write abspath)
               w files in
  (exists e t0,
     ran [sync_playwright_enter] (Raise e) t0 /\ trace (snd out) = t0) \/
  (exists t0 e t1 res2 t2,
     ran [sync_playwright_enter] (Ok tt) t0 /\
     ran [launch true; new_page] (Raise e) t1 /\
     ran [sync_playwright_exit] res2 t2 /\
     trace (snd out) = t0 ++ t1 ++ t2) \/
  (exists t0 t1 res ts ls tc res2 t2,
     ran [sync_playwright_enter] (Ok tt) t0 /\
     ran [launch true; new_page] (Ok tt) t1 /\
     ran (simulation_steps abspath) res ts /\
     ((tc = [] /\
       (exists st e,
          fst (Stdout.verify_simulation.report write st) = Raise e) /\
       fst out <> Ok tt) \/
      ((exists resc, ran [close] resc tc) /\
       exists st, fst (Stdout.verify_simulation.report write st) = Ok tt)) /\
     ran [sync_playwright_exit] res2 t2 /\
     trace (snd out) =
       t0 ++ t1 ++ [Listening console; Listening pageerror]
       ++ ts ++ map Printed ls ++ tc ++ t2).
Proof.
  cbn zeta. unfold run. rewrite simulation_stdout_shape.
  pose proof (scope_replay respond
                (Stdout.simulation_session respond write abspath)
                (initial w files)) as H.
  cbn zeta in H. cbn [world initial] in H.
  pose proof (drive_ran respond [sync_playwright_enter] w) as R0.
  destruct (result (drive respond [sync_playwright_enter] w))
    as [[]|e] eqn:E0.
  2: { left. destruct H as (_ & _ & (H3 & _)).
       exists e, (observed (drive respond [sync_playwright_enter] w)).
       split; [exact R0|]. by rewrite H3. }
  right.
  destruct H as (s1 & Hw & (T0 & _) & (H1 & _ & (T2 & _))).
  cbn [trace initial app] in T0. cbn [observed result] in T2, H1.
  rewrite T2, H1. clear T2 H1.
  pose proof (drive_ran respond [sync_playwright_exit]
                (world (snd (Stdout.simulation_session respond write
                               abspath s1)))) as R2.
  revert R2.
  generalize (drive respond [sync_playwright_exit]
                (world (snd (Stdout.simulation_session respond write
                               abspath s1)))).
  intros left R2.
  pose proof (session_stdout s1) as Hs. cbn zeta in Hs.
  pose proof (drive_ran respond [launch true; new_page] (world s1)) as R1.
  destruct (result (drive respond [launch true; new_page] (world s1)))
    as [[]|e1] eqn:E1.
  - right. destruct Hs as (ls & tc & -> & Htc).
    set (w2 := final (drive respond [launch true; new_page] (world s1)))
      in *.
    set (steps := drive respond (simulation_steps abspath) w2) in *.
    exists (observed (drive respond [sync_playwright_enter] w)),
      (observed (drive respond [launch true; new_page] (world s1))),
      (result steps), (observed steps), ls, tc,
      (result left), (observed left).
    split; [exact R0|]. split; [exact R1|].
    split; [apply drive_ran|]. split.
    { destruct Htc as [(-> & Hr & e & ->)|(-> & Hok)]; [left|right].
      - split; [done|]. split; [done|]. by destruct (result left).
      - split; [|done]. eexists. apply drive_ran. }
    split; [exact R2|]. rewrite T0, <- !app_assoc. reflexivity.
  - left. rewrite Hs.
    exists (observed (drive respond [sync_playwright_enter] w)), e1,
      (observed (drive respond [launch true; new_page] (world s1))),
      (result left), (observed left).
    split; [exact R0|]. split; [exact R1|]. split; [exact R2|].
    by rewrite T0, <- !app_assoc.
Qed.
End StdoutRuns.

Section Writable.
Context {W : Type}.
Variable respond : Call -> W -> Response * W.
Variable abspath : string -> string.

Lemma print_each_writable (xs : list string) (st : St W) :
  Stdout.print_each Stdout.writable xs st = print_each xs st.
Proof.
  revert st. induction xs as [|x xs IH]; intros st; [done|].
  cbn [Stdout.print_each print_each]. unfold bind.
  change (Stdout.print Stdout.writable x st) with (print x st).
  destruct (print x st) as [[[]|e] s1]; [apply IH|done].
Qed.

Lemma report_writable (st : St W) :
  Stdout.verify_simulation.report Stdout.writable st =
  verify_simulation.report st.
Proof.
  unfold Stdout.verify_simulation.report, verify_simulation.report, bind,
    get_console_messages, get_page_errors.
  change (Stdout.print (W:=W) Stdout.writable) with (print (W:=W)).
  unfold print. cbv beta iota zeta.
  cbn [console_messages page_errors log].
  destruct (console_messages st) as [|m ms];
    rewrite ?print_each_writable, ?print_each_eq;
    cbv beta iota zeta; cbn [console_messages page_errors log];
    destruct (page_errors st) as [|e es];
    rewrite ?print_each_writable; reflexivity.
Qed.

Lemma bind_ext {A B} (m : M W A) (k1 k2 : A -> M W B) (st : St W) :
  (forall a s, k1 a s = k2 a s) -> bind m k1 st = bind m k2 st.
Proof. intros H. unfold bind. by destruct (m st) as [[a|e] s]. Qed.

Lemma try_finally_ext {A} (body : M W A) (f1 f2 : M W unit) (st : St W) :
  (forall s, f1 s = f2 s) ->
  try_finally body f1 st = try_finally body f2 st.
Proof.
  intros H. unfold try_finally. destruct (body st) as [r s]. by rewrite H.
Qed.

Lemma try_finally_body_ext {A} (b1 b2 : M W A) (final : M W unit)
    (st : St W) :
  (forall s, b1 s = b2 s) ->
  try_finally b1 final st = try_finally b2 final st.
Proof. intros H. unfold try_finally. by rewrite H. Qed.

(** With a standard output that takes every line the scripts are the
    scripts embedded first. *)
Lemma writable_stdout (s : Script) (st : St W) :
  Stdout.main_of s respond Stdout.writable abspath st =
  main_of s respond abspath st.
Proof.
  destruct s; cbn [Stdout.main_of main_of]; [|reflexivity..].
  unfold Stdout.verify_simulation.main, verify_simulation.main,
    Stdout.verify_simulation.run_verification,
    verify_simulation.run_verification, with_sync_playwright.
  apply bind_ext. intros _ s0. apply try_finally_body_ext. intros s1.
  do 5 (apply bind_ext; intros _ ?).
  apply try_finally_ext. intros s7.
  unfold Stdout.verify_simulation.teardown, verify_simulation.teardown, bind.
  by rewrite report_writable.
Qed.
End Writable.


Section ReleaseClaim.
Context {W : Type}.
Variable respond : Call -> W -> Response * W.
Variable write : string -> W -> option Exn.
Variable abspath : string -> string.

Lemma report_needs_stdout (st : St W) :
  (forall line w', write line w' <> None) ->
  exists e, fst (Stdout.verify_simulation.report write st) = Raise e.
Proof.
  intros Hclosed. unfold Stdout.verify_simulation.report.
  unfold bind at 1. unfold Stdout.print at 1.
  destruct (write _ (world st)) as [e|] eqn:E; [by exists e|].
  by apply Hclosed in E.
Qed.


(** X15.  The [finally] block of [verify_simulation.py] prints before it
    closes the browser: when standard output refuses every line, the first
    [print] of the report raises, [browser.close()] is never called, the
    [sync_playwright] scope is still left exactly once, and a run that
    acquired its session does not end normally. *)
Theorem closed_stdout_skips_close (w : W) (files : gmap string (list byte)) :
  let out := run (Stdout.verify_simulation.main respond write abspath)
               w files in
  let tr := trace (snd out) in
  (forall line w', write line w' <> None) ->
  (close ∉ calls tr) /\
  scope_exits tr =
    (if bool_decide (sync_playwright_enter ∈ returns tr) then 1 else 0)%nat /\
  (new_page ∈ returns tr -> fst out <> Ok tt).
Proof.
  cbn zeta. intros Hclosed.
  destruct (simulation_stdout_anatomy respond write abspath w files)
    as [(e & t0 & R0 & ->)
       |[(t0 & e & t1 & res2 & t2 & R0 & R1 & R2 & ->)
        |(t0 & t1 & res & ts & ls & tc & res2 & t2
          & R0 & R1 & Rs & [(-> & _ & Hres)|(_ & st & Hok)] & R2 & ->)]].
  - project; tidy. split; [intros Hin; by refute_in Hin|].
    split; [by vm_compute|]. intros Hin. by refute_in Hin.
  - project; tidy; (split; [intros Hin; by refute_in Hin|]);
      (split; [by vm_compute|]); intros Hin; by refute_in Hin.
  - project; tidy; rewrite ?app_nil_r;
      (split; [intros Hin; by refute_in Hin|]);
      (split; [by vm_compute|done]).
  - destruct (report_needs_stdout st Hclosed) as [e He]. congruence.
Qed.
End ReleaseClaim.

(** Standard output is closed: the report cannot be printed, and the
    [finally] block never reaches [browser.close()]. *)
Lemma closed_stdout_skips_close_witness :
  let out := run (Stdout.verify_simulation.main Samples.healthy
                    Stdout.closed Samples.abspath) tt ∅ in
  new_page ∈ returns (trace (snd out)) /\
  (close ∉ calls (trace (snd out))) /\
  scope_exits (trace (snd out)) = 1%nat /\
  fst out <> Ok tt.
Proof.
  cbn zeta.
  destruct (closed_stdout_skips_close Samples.healthy Stdout.closed
              Samples.abspath tt ∅) as (Hclose & Hexit & Hres).
  - done.
  - assert (new_page ∈ returns (trace (snd (run
              (Stdout.verify_simulation.main Samples.healthy Stdout.closed
                 Samples.abspath) tt ∅)))) as Hacq
      by decide_by_computation.
    split; [exact Hacq|]. split; [exact Hclose|].
    split; [by rewrite Hexit|]. by apply Hres.
Defined.
